(** * Session lifecycle and role-gated routing of the bakery front end

    A shallow embedding of the client-side authentication code:
    - [src/utils/auth.ts]            the token/user store ([authUtils]),
    - [src/services/api.ts]          the axios wrapper and its interceptors,
    - [src/hooks/useAuth] (provider) [initAuth], [login], [register], [logout],
    - [src/components/ProtectedRoute.tsx]  the route guard.

    JavaScript values are modelled as JSON values, [localStorage] as a finite
    map from strings to strings, and the asynchronous operations as
    computations over an explicit world that can complete normally or throw. *)

From stdpp Require Import gmap strings list pretty.
From Stdlib Require Import ZArith Ascii String Lia.

Set Warnings "-register-all".

Local Open Scope string_scope.
Local Open Scope list_scope.
Local Open Scope Z_scope.

(** ** JavaScript values *)

(** A JSON number literal kept as the exact decimal [mant * 10 ^ expo]. *)
Record number := Dec { mant : Z; expo : Z }.

Inductive JsVal :=
| JNull
| JBool (b : bool)
| JNum (n : number)
| JStr (s : string)
| JArr (items : list JsVal)
| JObj (fields : list (string * JsVal)).

(** Whether the IEEE double nearest to the decimal is zero: the literal is
    zero, or it is at most 2^-1075, half of the least subnormal. *)
Definition number_is_zero (n : number) : bool :=
  if mant n =? 0 then true
  else if 0 <=? expo n then false
  else Z.abs (mant n) * 2 ^ 1075 <=? 10 ^ (- expo n).

(** [!!v] *)
Definition truthy (v : JsVal) : bool :=
  match v with
  | JNull => false
  | JBool b => b
  | JNum n => negb (number_is_zero n)
  | JStr s => negb (String.eqb s "")
  | JArr _ => true
  | JObj _ => true
  end.

(** [!!s] for a [string | null] *)
Definition truthy_str (s : option string) : bool :=
  match s with
  | Some t => negb (String.eqb t "")
  | None => false
  end.

Fixpoint assoc_get (k : string) (fields : list (string * JsVal)) : option JsVal :=
  match fields with
  | [] => None
  | (k', v) :: rest => if String.eqb k k' then Some v else assoc_get k rest
  end.

(** Defining an own property: a key written twice keeps its place and takes
    the last value. *)
Fixpoint set_prop (k : string) (v : JsVal) (fields : list (string * JsVal))
  : list (string * JsVal) :=
  match fields with
  | [] => [(k, v)]
  | (k', v') :: rest =>
      if String.eqb k k' then (k, v) :: rest else (k', v') :: set_prop k v rest
  end.

(** [v?.k] for a key that no prototype defines: [None] is [undefined]. *)
Definition get_prop (k : string) (v : JsVal) : option JsVal :=
  match v with
  | JObj fields => assoc_get k fields
  | _ => None
  end.

(** [x === s] for a string [s] *)
Definition strict_eq_str (x : option JsVal) (s : string) : bool :=
  match x with
  | Some (JStr t) => String.eqb t s
  | _ => false
  end.

(** [x || d] *)
Definition or_else (x : option JsVal) (d : JsVal) : JsVal :=
  match x with
  | Some v => if truthy v then v else d
  | None => d
  end.

(** ** A reference JSON reader and printer

    [JSON.parse] and [JSON.stringify] belong to the platform; the session
    code is modelled over any implementation of them (record [JSON] below).
    The reader here follows the JSON grammar on UTF-8 text and is the
    instance used to run the model on concrete stores. *)

Inductive Token :=
| TLBrace | TRBrace | TLBrack | TRBrack | TColon | TComma
| TStr (s : string)
| TNum (n : number)
| TLit (v : JsVal).

(** A character of a string literal: a source byte, or a UTF-16 code unit
    written as a [\uXXXX] escape. *)
Inductive StrItem := Raw (c : ascii) | Unit (u : N).

Inductive LexMode :=
| LTop
| LStr (acc : list StrItem)
| LEsc (acc : list StrItem)
| LUni (acc : list StrItem) (digits : list N)
| LNum (acc : list ascii)
| LLit (expect : list ascii) (v : JsVal).

Definition byte (n : N) : ascii := ascii_of_N n.

(** The double quote character. *)
Definition dquote : ascii := byte 34.

Definition is_ws (c : ascii) : bool :=
  let n := N_of_ascii c in
  ((n =? 32) || (n =? 9) || (n =? 10) || (n =? 13))%N.

Definition is_digit (c : ascii) : bool :=
  let n := N_of_ascii c in ((48 <=? n) && (n <=? 57))%N.

Definition digit_val (c : ascii) : Z := Z.of_N (N_of_ascii c) - 48.

Definition hex_val (c : ascii) : option N :=
  let n := N_of_ascii c in
  if ((48 <=? n) && (n <=? 57))%N then Some (n - 48)%N
  else if ((65 <=? n) && (n <=? 70))%N then Some (n - 55)%N
  else if ((97 <=? n) && (n <=? 102))%N then Some (n - 87)%N
  else None.

Definition is_number_char (c : ascii) : bool :=
  is_digit c || Ascii.eqb c "-" || Ascii.eqb c "+" || Ascii.eqb c "."
  || Ascii.eqb c "e" || Ascii.eqb c "E".

(** UTF-8 (generalised to lone surrogates) of a code point. *)
Definition utf8 (cp : N) : list ascii :=
  (if cp <? 128 then [byte cp]
   else if cp <? 2048 then [byte (192 + cp / 64); byte (128 + cp mod 64)]
   else if cp <? 65536 then
     [byte (224 + cp / 4096); byte (128 + (cp / 64) mod 64); byte (128 + cp mod 64)]
   else
     [byte (240 + cp / 262144); byte (128 + (cp / 4096) mod 64);
      byte (128 + (cp / 64) mod 64); byte (128 + cp mod 64)])%N.

Definition is_high (u : N) : bool := ((55296 <=? u) && (u <=? 56319))%N.
Definition is_low (u : N) : bool := ((56320 <=? u) && (u <=? 57343))%N.

Fixpoint bytes_of_items (l : list StrItem) : list ascii :=
  match l with
  | [] => []
  | Raw c :: rest => c :: bytes_of_items rest
  | Unit hi :: rest =>
      match rest with
      | Unit lo :: rest' =>
          if is_high hi && is_low lo
          then utf8 (65536 + (hi - 55296) * 1024 + (lo - 56320))%N ++ bytes_of_items rest'
          else utf8 hi ++ bytes_of_items rest
      | _ => utf8 hi ++ bytes_of_items rest
      end
  end.

Definition string_of_items (acc : list StrItem) : string :=
  string_of_list_ascii (bytes_of_items (rev acc)).

Fixpoint span_digits (l : list ascii) : list ascii * list ascii :=
  match l with
  | c :: rest =>
      if is_digit c then let '(d, r) := span_digits rest in (c :: d, r) else ([], l)
  | [] => ([], [])
  end.

Definition digits_val (l : list ascii) : Z :=
  fold_left (fun acc c => 10 * acc + digit_val c) l 0.

(** The exponent part: empty, or [e], an optional sign and digits. *)
Definition read_exponent (l : list ascii) : option Z :=
  match l with
  | [] => Some 0
  | c :: rest =>
      if Ascii.eqb c "e" || Ascii.eqb c "E" then
        let '(neg, rest) :=
          match rest with
          | s :: r => if Ascii.eqb s "-" then (true, r)
                      else if Ascii.eqb s "+" then (false, r) else (false, rest)
          | [] => (false, rest)
          end in
        match span_digits rest with
        | ((_ :: _) as d, []) => Some (if neg then - digits_val d else digits_val d)
        | _ => None
        end
      else None
  end.

(** A number literal: an optional minus sign; a single zero or a digit
    string without leading zero; an optional fraction (a dot and at least
    one digit); an optional exponent. *)
Definition read_number (l : list ascii) : option number :=
  let '(neg, l) :=
    match l with
    | c :: r => if Ascii.eqb c "-" then (true, r) else (false, l)
    | [] => (false, l)
    end in
  let '(int, l) := span_digits l in
  let int_ok :=
    match int with
    | [] => false
    | [_] => true
    | c :: _ => negb (Ascii.eqb c "0")
    end in
  if negb int_ok then None else
  let frac_rest :=
    match l with
    | c :: r =>
        if Ascii.eqb c "." then
          match span_digits r with
          | ((_ :: _) as f, r') => Some (f, r')
          | _ => None
          end
        else Some ([], l)
    | [] => Some ([], l)
    end in
  match frac_rest with
  | None => None
  | Some (frac, l) =>
      match read_exponent l with
      | None => None
      | Some e =>
          let m := digits_val (int ++ frac) in
          Some (Dec (if neg then - m else m) (e - Z.of_nat (List.length frac)))
      end
  end.

(** What a character does outside any literal. *)
Definition lex_top (c : ascii) : option (LexMode * list Token) :=
  if is_ws c then Some (LTop, [])
  else if Ascii.eqb c "{" then Some (LTop, [TLBrace])
  else if Ascii.eqb c "}" then Some (LTop, [TRBrace])
  else if Ascii.eqb c "[" then Some (LTop, [TLBrack])
  else if Ascii.eqb c "]" then Some (LTop, [TRBrack])
  else if Ascii.eqb c ":" then Some (LTop, [TColon])
  else if Ascii.eqb c "," then Some (LTop, [TComma])
  else if Ascii.eqb c dquote then Some (LStr [], [])
  else if Ascii.eqb c "-" || is_digit c then Some (LNum [c], [])
  else if Ascii.eqb c "t" then Some (LLit (list_ascii_of_string "rue") (JBool true), [])
  else if Ascii.eqb c "f" then Some (LLit (list_ascii_of_string "alse") (JBool false), [])
  else if Ascii.eqb c "n" then Some (LLit (list_ascii_of_string "ull") JNull, [])
  else None.

Definition lex_escape (c : ascii) : option ascii :=
  if Ascii.eqb c dquote then Some c
  else if Ascii.eqb c "\" then Some c
  else if Ascii.eqb c "/" then Some c
  else if Ascii.eqb c "b" then Some (byte 8)
  else if Ascii.eqb c "f" then Some (byte 12)
  else if Ascii.eqb c "n" then Some (byte 10)
  else if Ascii.eqb c "r" then Some (byte 13)
  else if Ascii.eqb c "t" then Some (byte 9)
  else None.

Definition lex_step (mode : LexMode) (c : ascii) : option (LexMode * list Token) :=
  match mode with
  | LTop => lex_top c
  | LStr acc =>
      if Ascii.eqb c dquote then Some (LTop, [TStr (string_of_items acc)])
      else if Ascii.eqb c "\" then Some (LEsc acc, [])
      else if (N_of_ascii c <? 32)%N then None
      else Some (LStr (Raw c :: acc), [])
  | LEsc acc =>
      if Ascii.eqb c "u" then Some (LUni acc [], [])
      else match lex_escape c with
           | Some b => Some (LStr (Raw b :: acc), [])
           | None => None
           end
  | LUni acc digits =>
      match hex_val c with
      | None => None
      | Some h =>
          match digits with
          | [d1; d2; d3] =>
              Some (LStr (Unit (((d1 * 16 + d2) * 16 + d3) * 16 + h)%N :: acc), [])
          | _ => Some (LUni acc (digits ++ [h]), [])
          end
      end
  | LNum acc =>
      if is_number_char c then Some (LNum (c :: acc), [])
      else match read_number (rev acc), lex_top c with
           | Some n, Some (mode', toks) => Some (mode', TNum n :: toks)
           | _, _ => None
           end
  | LLit expect v =>
      match expect with
      | [e] => if Ascii.eqb c e then Some (LTop, [TLit v]) else None
      | e :: rest => if Ascii.eqb c e then Some (LLit rest v, []) else None
      | [] => None
      end
  end.

Fixpoint lex (mode : LexMode) (l : list ascii) : option (list Token) :=
  match l with
  | [] =>
      match mode with
      | LTop => Some []
      | LNum acc => match read_number (rev acc) with
                    | Some n => Some [TNum n]
                    | None => None
                    end
      | _ => None
      end
  | c :: rest =>
      match lex_step mode c with
      | None => None
      | Some (mode', toks) =>
          match lex mode' rest with
          | None => None
          | Some more => Some (toks ++ more)
          end
      end
  end.

(** A container waiting for the value being read. *)
Inductive Frame :=
| FArr (acc : list JsVal)
| FObj (acc : list (string * JsVal)) (key : string).

Inductive ParseState :=
| SVal (stack : list Frame)
| SArr0 (stack : list Frame)
| SKey (first : bool) (acc : list (string * JsVal)) (stack : list Frame)
| SColon (acc : list (string * JsVal)) (key : string) (stack : list Frame)
| SAfterArr (acc : list JsVal) (stack : list Frame)
| SAfterObj (acc : list (string * JsVal)) (stack : list Frame)
| SDone (v : JsVal).

Definition complete (v : JsVal) (stack : list Frame) : ParseState :=
  match stack with
  | [] => SDone v
  | FArr acc :: stack' => SAfterArr (v :: acc) stack'
  | FObj acc key :: stack' => SAfterObj (set_prop key v acc) stack'
  end.

Definition parse_value_token (t : Token) (stack : list Frame) : option ParseState :=
  match t with
  | TStr s => Some (complete (JStr s) stack)
  | TNum n => Some (complete (JNum n) stack)
  | TLit v => Some (complete v stack)
  | TLBrack => Some (SArr0 stack)
  | TLBrace => Some (SKey true [] stack)
  | _ => None
  end.

Definition parse_step (st : ParseState) (t : Token) : option ParseState :=
  match st with
  | SVal stack => parse_value_token t stack
  | SArr0 stack =>
      match t with
      | TRBrack => Some (complete (JArr []) stack)
      | _ => parse_value_token t (FArr [] :: stack)
      end
  | SKey first acc stack =>
      match t with
      | TStr k => Some (SColon acc k stack)
      | TRBrace => if first then Some (complete (JObj acc) stack) else None
      | _ => None
      end
  | SColon acc key stack =>
      match t with
      | TColon => Some (SVal (FObj acc key :: stack))
      | _ => None
      end
  | SAfterArr acc stack =>
      match t with
      | TComma => Some (SVal (FArr acc :: stack))
      | TRBrack => Some (complete (JArr (rev acc)) stack)
      | _ => None
      end
  | SAfterObj acc stack =>
      match t with
      | TComma => Some (SKey false acc stack)
      | TRBrace => Some (complete (JObj acc) stack)
      | _ => None
      end
  | SDone _ => None
  end.

Fixpoint parse_tokens (st : ParseState) (ts : list Token) : option JsVal :=
  match ts with
  | [] => match st with SDone v => Some v | _ => None end
  | t :: rest =>
      match parse_step st t with
      | Some st' => parse_tokens st' rest
      | None => None
      end
  end.

(** [JSON.parse]: [None] stands for the [SyntaxError] it throws. *)
Definition reference_parse (s : string) : option JsVal :=
  match lex LTop (list_ascii_of_string s) with
  | Some ts => parse_tokens (SVal []) ts
  | None => None
  end.

Definition hex_digit (n : N) : ascii :=
  if (n <? 10)%N then byte (48 + n) else byte (87 + n).

Definition escape_char (c : ascii) : list ascii :=
  let n := N_of_ascii c in
  if Ascii.eqb c dquote then ["\"; c]%char
  else if Ascii.eqb c "\" then ["\"; c]%char
  else if (n =? 8)%N then ["\"; "b"]%char
  else if (n =? 12)%N then ["\"; "f"]%char
  else if (n =? 10)%N then ["\"; "n"]%char
  else if (n =? 13)%N then ["\"; "r"]%char
  else if (n =? 9)%N then ["\"; "t"]%char
  else if (n <? 32)%N then
    ["\"; "u"; "0"; "0"; hex_digit (n / 16); hex_digit (n mod 16)]%char
  else [c].

Definition quote (s : string) : string :=
  string_of_list_ascii
    (dquote :: flat_map escape_char (list_ascii_of_string s) ++ [dquote]).

(** Integers print as their digits, as [JSON.stringify] prints them below
    10^21; other decimals are printed with their exponent. The order in
    which an object's keys are printed is their order in the object. *)
Definition print_number (n : number) : string :=
  if expo n =? 0 then pretty (mant n)
  else (pretty (mant n) ++ "e" ++ pretty (expo n))%string.

Definition join (parts : list string) : string :=
  match parts with
  | [] => ""
  | p :: rest => fold_left (fun acc q => (acc ++ "," ++ q)%string) rest p
  end.

Fixpoint reference_stringify (v : JsVal) : string :=
  match v with
  | JNull => "null"
  | JBool true => "true"
  | JBool false => "false"
  | JNum n => print_number n
  | JStr s => quote s
  | JArr items => ("[" ++ join (List.map reference_stringify items) ++ "]")%string
  | JObj fields =>
      ("{" ++ join (List.map (fun kv => (quote (fst kv) ++ ":" ++ reference_stringify (snd kv))%string)
                             fields) ++ "}")%string
  end.

(** The platform's JSON object. [JSON_parse] returns [None] where
    [JSON.parse] throws its [SyntaxError]. *)
Record JSON := {
  JSON_parse : string -> option JsVal;
  JSON_stringify : JsVal -> string
}.

Definition reference_JSON : JSON :=
  {| JSON_parse := reference_parse; JSON_stringify := reference_stringify |}.

(** ** Types of [src/types/index.ts] *)

Inductive UserRole := customer | baker | delivery_person | admin.

(** The string a role is at run time. *)
Definition UserRole_str (r : UserRole) : string :=
  match r with
  | customer => "customer"
  | baker => "baker"
  | delivery_person => "delivery_person"
  | admin => "admin"
  end.

Record LoginRequest := {
  login_email : string;
  login_password : string
}.

Record RegisterRequest := {
  reg_email : string;
  reg_username : string;
  reg_full_name : string;
  reg_password : string;
  reg_phone : option string;
  reg_address : option string;
  reg_role : UserRole
}.

Record AuthResponse := {
  access_token : string;
  token_type : string
}.

(** What the current-user endpoint returns. *)
Record UserProfile := {
  id : number;
  email : string;
  username : string;
  full_name : string;
  role : UserRole;
  is_active : bool
}.

(** The run-time object behind a [UserProfile]. *)
Definition UserProfile_val (p : UserProfile) : JsVal :=
  JObj [("id", JNum (id p));
        ("email", JStr (email p));
        ("username", JStr (username p));
        ("full_name", JStr (full_name p));
        ("role", JStr (UserRole_str (role p)));
        ("is_active", JBool (is_active p))].

Definition LoginRequest_val (c : LoginRequest) : JsVal :=
  JObj [("email", JStr (login_email c)); ("password", JStr (login_password c))].

Definition optional_field (k : string) (v : option string) : list (string * JsVal) :=
  match v with
  | Some s => [(k, JStr s)]
  | None => []
  end.

Definition RegisterRequest_val (d : RegisterRequest) : JsVal :=
  JObj ([("email", JStr (reg_email d));
         ("username", JStr (reg_username d));
         ("full_name", JStr (reg_full_name d));
         ("password", JStr (reg_password d))]
        ++ optional_field "phone" (reg_phone d)
        ++ optional_field "address" (reg_address d)
        ++ [("role", JStr (UserRole_str (reg_role d)))]).

(** ** The world the code runs in *)

Inductive Method := GET | POST.

(** A request as it is handed to the network. *)
Record Request := {
  req_method : Method;
  req_url : string;
  req_headers : gmap string string;
  req_data : JsVal
}.

(** [error.response] of a rejected call. *)
Record ErrorResponse := {
  status : Z;
  data : JsVal
}.

(** An axios error; [response] is absent when no response was received. *)
Record AxiosError := {
  response : option ErrorResponse
}.

(** What is thrown: a rejected call, or the [SyntaxError] of [JSON.parse]. *)
Inductive Exn :=
| EAxios (error : AxiosError)
| ESyntaxError.

Inductive Toast :=
| toast_success (message : JsVal)
| toast_error (message : JsVal).

Record World := {
  localStorage : gmap string string;
  (** [axiosInstance.defaults.headers.common] *)
  defaults_common : gmap string string;
  (** the last assignment to [window.location.href], if any *)
  location_href : option string;
  (** the requests handed to the network, oldest first *)
  sent : list Request;
  (** the notifications shown, oldest first *)
  toasts : list Toast;
  (** the provider's state *)
  user : JsVal;
  loading : bool
}.

Definition with_localStorage (f : gmap string string -> gmap string string) (w : World) : World :=
  {| localStorage := f (localStorage w); defaults_common := defaults_common w;
     location_href := location_href w; sent := sent w; toasts := toasts w;
     user := user w; loading := loading w |}.

Definition with_defaults_common (f : gmap string string -> gmap string string) (w : World) : World :=
  {| localStorage := localStorage w; defaults_common := f (defaults_common w);
     location_href := location_href w; sent := sent w; toasts := toasts w;
     user := user w; loading := loading w |}.

Definition with_location_href (h : string) (w : World) : World :=
  {| localStorage := localStorage w; defaults_common := defaults_common w;
     location_href := Some h; sent := sent w; toasts := toasts w;
     user := user w; loading := loading w |}.

Definition with_sent (r : Request) (w : World) : World :=
  {| localStorage := localStorage w; defaults_common := defaults_common w;
     location_href := location_href w; sent := sent w ++ [r]; toasts := toasts w;
     user := user w; loading := loading w |}.

Definition with_toast (t : Toast) (w : World) : World :=
  {| localStorage := localStorage w; defaults_common := defaults_common w;
     location_href := location_href w; sent := sent w; toasts := toasts w ++ [t];
     user := user w; loading := loading w |}.

Definition with_user (u : JsVal) (w : World) : World :=
  {| localStorage := localStorage w; defaults_common := defaults_common w;
     location_href := location_href w; sent := sent w; toasts := toasts w;
     user := u; loading := loading w |}.

Definition with_loading (b : bool) (w : World) : World :=
  {| localStorage := localStorage w; defaults_common := defaults_common w;
     location_href := location_href w; sent := sent w; toasts := toasts w;
     user := user w; loading := b |}.

(** ** Computations that may throw

    A thrown exception keeps the effects made before it. *)

Inductive Completion (A : Type) :=
| Normal (a : A)
| Throw (e : Exn).

Arguments Normal {A} a.
Arguments Throw {A} e.

Definition M (A : Type) : Type := World -> Completion A * World.

Definition ret {A} (a : A) : M A := fun w => (Normal a, w).

Definition throw {A} (e : Exn) : M A := fun w => (Throw e, w).

Definition bind {A B} (m : M A) (k : A -> M B) : M B :=
  fun w =>
    match m w with
    | (Normal a, w') => k a w'
    | (Throw e, w') => (Throw e, w')
    end.

(** [try { body } catch (error) { handler }] *)
Definition try_catch {A} (body : M A) (handler : Exn -> M A) : M A :=
  fun w =>
    match body w with
    | (Normal a, w') => (Normal a, w')
    | (Throw e, w') => handler e w'
    end.

(** [try { body } finally { final }] *)
Definition try_finally {A} (body : M A) (final : M unit) : M A :=
  fun w =>
    match body w with
    | (c, w') =>
        match final w' with
        | (Normal _, w'') => (c, w'')
        | (Throw e, w'') => (Throw e, w'')
        end
    end.

(** A statement that only changes the world. *)
Definition effect (f : World -> World) : M unit := fun w => (Normal tt, f w).

Definition read {A} (f : World -> A) : M A := fun w => (Normal (f w), w).

Declare Scope js_scope.
Delimit Scope js_scope with js.
Notation "x <- m ;; k" := (bind m (fun x => k))
  (at level 100, m at next level, right associativity) : js_scope.
Notation "m ;; k" := (bind m (fun _ => k))
  (at level 100, right associativity) : js_scope.
Local Open Scope js_scope.

(** [localStorage] *)

Definition localStorage_getItem (k : string) : M (option string) :=
  read (fun w => localStorage w !! k).

Definition localStorage_setItem (k v : string) : M unit :=
  effect (with_localStorage (insert k v)).

Definition localStorage_removeItem (k : string) : M unit :=
  effect (with_localStorage (delete k)).

(** ** [src/utils/auth.ts] *)

Definition TOKEN_KEY : string := "token".
Definition USER_KEY : string := "user".

Module authUtils.
Section WithJSON.
Variable json : JSON.

Definition setToken (token : string) : M unit :=
  localStorage_setItem TOKEN_KEY token.

Definition getToken : M (option string) :=
  localStorage_getItem TOKEN_KEY.

Definition removeToken : M unit :=
  localStorage_removeItem TOKEN_KEY.

Definition setUser (user : JsVal) : M unit :=
  localStorage_setItem USER_KEY (JSON_stringify json user).

(** [userStr ? JSON.parse(userStr) : null] *)
Definition getUser : M JsVal :=
  userStr <- localStorage_getItem USER_KEY ;;
  match userStr with
  | Some s =>
      if truthy_str userStr then
        match JSON_parse json s with
        | Some v => ret v
        | None => throw ESyntaxError
        end
      else ret JNull
  | None => ret JNull
  end.

Definition removeUser : M unit :=
  localStorage_removeItem USER_KEY.

(** [!!this.getToken() && !!this.getUser()] *)
Definition isAuthenticated : M bool :=
  token <- getToken ;;
  if truthy_str token then (user <- getUser ;; ret (truthy user)) else ret false.

(** [user?.role === role] *)
Definition hasRole (role : string) : M bool :=
  user <- getUser ;;
  ret (strict_eq_str (get_prop "role" user) role).

Definition isCustomer : M bool := hasRole "customer".
Definition isBaker : M bool := hasRole "baker".
Definition isDeliveryPerson : M bool := hasRole "delivery_person".
Definition isAdmin : M bool := hasRole "admin".

Definition logout : M unit :=
  removeToken ;; removeUser.

Definition getAuthHeaders : M (gmap string string) :=
  token <- getToken ;;
  match token with
  | Some t => if truthy_str token then ret {[ "Authorization" := "Bearer " +:+ t ]} else ret ∅
  | None => ret ∅
  end.

End WithJSON.
End authUtils.

(** ** [src/services/api.ts] *)

(** What the network makes of a call once axios has settled it: resolved
    with the response data, or rejected with an error. *)
Inductive Outcome (A : Type) :=
| Resolved (d : A)
| Rejected (error : AxiosError).

Arguments Resolved {A} d.
Arguments Rejected {A} error.

(** The backend is opaque: it is given by what it answers to the call an
    operation makes to each endpoint of the session. *)
Record Backend := {
  reply_login : Outcome AuthResponse;
  reply_register : Outcome JsVal;
  reply_me : Outcome UserProfile
}.

(** [error.response?.status === 401] *)
Definition status_is_401 (error : AxiosError) : bool :=
  match response error with
  | Some r => status r =? 401
  | None => false
  end.

Module ApiService.

(** The headers given to [axios.create]. *)
Definition instance_headers : gmap string string :=
  {[ "Content-Type" := "application/json" ]}.

(** The request interceptor. *)
Definition request_interceptor (config : Request) : M Request :=
  token <- localStorage_getItem "token" ;;
  match token with
  | Some t =>
      if truthy_str token then
        ret {| req_method := req_method config; req_url := req_url config;
               req_headers := <[ "Authorization" := "Bearer " +:+ t ]> (req_headers config);
               req_data := req_data config |}
      else ret config
  | None => ret config
  end.

(** The response interceptor on a rejected call. *)
Definition response_rejected {A} (error : AxiosError) : M A :=
  (if status_is_401 error then
     localStorage_removeItem "token" ;;
     localStorage_removeItem "user" ;;
     effect (with_location_href "/login")
   else ret tt) ;;
  throw (EAxios error).

(** One call through [axiosInstance]. As axios does for every request, the
    headers of [defaults.headers.common] are merged into the request's
    headers before the request interceptors run; the request is then sent,
    and the response interceptor sees the outcome. *)
Definition request {A} (reply : Outcome A) (method : Method) (url : string) (data : JsVal)
  : M A :=
  common <- read defaults_common ;;
  config <- request_interceptor
              {| req_method := method; req_url := url;
                 req_headers := instance_headers ∪ common; req_data := data |} ;;
  effect (with_sent config) ;;
  match reply with
  | Resolved d => ret d
  | Rejected error => response_rejected error
  end.

Definition setAuthToken (token : option string) : M unit :=
  match token with
  | Some t =>
      if truthy_str token
      then effect (with_defaults_common (insert "Authorization" ("Bearer " +:+ t)))
      else effect (with_defaults_common (delete "Authorization"))
  | None => effect (with_defaults_common (delete "Authorization"))
  end.

Definition login (be : Backend) (credentials : LoginRequest) : M AuthResponse :=
  request (reply_login be) POST "/api/auth/login-form" (LoginRequest_val credentials).

Definition register (be : Backend) (userData : RegisterRequest) : M JsVal :=
  request (reply_register be) POST "/api/auth/register" (RegisterRequest_val userData).

Definition getCurrentUser (be : Backend) : M UserProfile :=
  request (reply_me be) GET "/api/auth/me" JNull.

End ApiService.

(** ** The session provider ([AuthProvider]) *)

Module AuthProvider.
Section WithJSON.
Variable json : JSON.

Definition setUser (u : JsVal) : M unit := effect (with_user u).
Definition setLoading (b : bool) : M unit := effect (with_loading b).

Definition toast (t : Toast) : M unit := effect (with_toast t).

(** [error.response?.data?.detail] *)
Definition error_detail (error : Exn) : option JsVal :=
  match error with
  | EAxios e =>
      match response e with
      | Some r => get_prop "detail" (data r)
      | None => None
      end
  | ESyntaxError => None
  end.

Definition initAuth (be : Backend) : M unit :=
  token <- authUtils.getToken ;;
  storedUser <- authUtils.getUser json ;;
  (if truthy_str token && truthy storedUser then
     try_catch
       (ApiService.getCurrentUser be ;;
        setUser storedUser)
       (fun error =>
          authUtils.logout ;;
          setUser JNull)
   else ret tt) ;;
  setLoading false.

Definition login (be : Backend) (credentials : LoginRequest) : M unit :=
  try_finally
    (try_catch
       (setLoading true ;;
        response <- ApiService.login be credentials ;;
        authUtils.setToken (access_token response) ;;
        ApiService.setAuthToken (Some (access_token response)) ;;
        userProfile <- ApiService.getCurrentUser be ;;
        authUtils.setUser json (UserProfile_val userProfile) ;;
        setUser (UserProfile_val userProfile) ;;
        toast (toast_success (JStr "Login successful!")))
       (fun error =>
          toast (toast_error (or_else (error_detail error) (JStr "Login failed"))) ;;
          throw error))
    (setLoading false).

Definition register (be : Backend) (userData : RegisterRequest) : M unit :=
  try_finally
    (try_catch
       (setLoading true ;;
        newUser <- ApiService.register be userData ;;
        toast (toast_success (JStr "Registration successful! Please login.")))
       (fun error =>
          toast (toast_error (or_else (error_detail error) (JStr "Registration failed"))) ;;
          throw error))
    (setLoading false).

Definition logout : M unit :=
  authUtils.logout ;;
  setUser JNull ;;
  toast (toast_success (JStr "Logged out successfully")).

End WithJSON.

(** [!!user] *)
Definition isAuthenticated (w : World) : bool := truthy (user w).

(** [user?.role === role] *)
Definition hasRole (w : World) (role : string) : bool :=
  strict_eq_str (get_prop "role" (user w)) role.

End AuthProvider.

(** What [useAuth] hands to the guard. *)
Record AuthContext := {
  ctx_user : JsVal;
  ctx_loading : bool;
  ctx_isAuthenticated : bool
}.

Definition useAuth (w : World) : AuthContext :=
  {| ctx_user := user w; ctx_loading := loading w;
     ctx_isAuthenticated := AuthProvider.isAuthenticated w |}.

(** ** [src/components/ProtectedRoute.tsx] *)

(** What the guard renders; [Navigate] carries the target and, for the
    login view, the location it was asked for ([state.from]). *)
Inductive Element (View : Type) :=
| Spinner
| Navigate (to : string) (from : option string)
| Children (children : View).

Arguments Spinner {View}.
Arguments Navigate {View} to from.
Arguments Children {View} children.

Definition ProtectedRoute {View} (ctx : AuthContext) (location : string)
  (children : View) (requiredRole : option UserRole) : Element View :=
  if ctx_loading ctx then Spinner
  else if negb (ctx_isAuthenticated ctx) then Navigate "/login" (Some location)
  else
    let user_role := get_prop "role" (ctx_user ctx) in
    match requiredRole with
    | Some required =>
        if negb (strict_eq_str user_role (UserRole_str required)) then
          if strict_eq_str user_role "admin" then Navigate "/admin" None
          else if strict_eq_str user_role "baker" then Navigate "/baker" None
          else if strict_eq_str user_role "delivery_person" then Navigate "/delivery" None
          else Navigate "/" None
        else Children children
    | None => Children children
    end.

(** ** Runs of the application *)

(** The world just after the page has loaded with the given storage:
    [useState(null)], [useState(true)], a fresh axios instance. *)
Definition page_load (storage : gmap string string) : World :=
  {| localStorage := storage; defaults_common := ∅; location_href := None;
     sent := []; toasts := []; user := JNull; loading := true |}.

Inductive Action :=
| AInitAuth (be : Backend)
| ALogin (be : Backend) (credentials : LoginRequest)
| ARegister (be : Backend) (userData : RegisterRequest)
| ALogout
| ACall (reply : Outcome JsVal) (method : Method) (url : string) (data : JsVal)
| AStorage (k : string) (v : option string)
| AReload.

Definition run (json : JSON) (a : Action) (w : World) : World :=
  match a with
  | AInitAuth be => snd (AuthProvider.initAuth json be w)
  | ALogin be credentials => snd (AuthProvider.login json be credentials w)
  | ARegister be userData => snd (AuthProvider.register be userData w)
  | ALogout => snd (AuthProvider.logout w)
  | ACall reply method url data => snd (ApiService.request reply method url data w)
  | AStorage k v =>
      with_localStorage (fun s => match v with Some x => <[ k := x ]> s | None => delete k s end) w
  | AReload =>
      {| localStorage := localStorage w; defaults_common := ∅; location_href := None;
         sent := sent w; toasts := []; user := JNull; loading := true |}
  end.

(** The worlds a run can reach from a page load. *)
Inductive reachable (json : JSON) : World -> Prop :=
| reachable_load storage : reachable json (page_load storage)
| reachable_step a w : reachable json w -> reachable json (run json a w).

(** The request a call through [axiosInstance] hands to the network in
    world [w]: the default headers, and the stored token when it is not
    empty. *)
Definition outgoing (w : World) (method : Method) (url : string) (data : JsVal) : Request :=
  let headers := ApiService.instance_headers ∪ defaults_common w in
  {| req_method := method; req_url := url;
     req_headers :=
       match localStorage w !! "token" with
       | Some t =>
           if String.eqb t "" then headers
           else <[ "Authorization" := "Bearer " +:+ t ]> headers
       | None => headers
       end;
     req_data := data |}.

(** The [Authorization] header of a request. *)
Definition authorization (r : Request) : option string :=
  req_headers r !! "Authorization".

(** ** The guard as the specification words it *)

(** The fixed role-home mapping: admin, baker and delivery person go to
    their own home, anything else to the default home. *)
Definition role_home (user_role : option JsVal) : string :=
  match user_role with
  | Some (JStr r) =>
      if String.eqb r "admin" then "/admin"
      else if String.eqb r "baker" then "/baker"
      else if String.eqb r "delivery_person" then "/delivery"
      else "/"
  | _ => "/"
  end.

(** The user's role is exactly the required one. *)
Definition role_is (user_role : option JsVal) (required : UserRole) : Prop :=
  user_role = Some (JStr (UserRole_str required)).

(** ** Sample data *)

Definition sample_profile : UserProfile :=
  {| id := Dec 1 0; email := "a@b.com"; username := "ab"; full_name := "A B";
     role := baker; is_active := true |}.

Definition sample_credentials : LoginRequest :=
  {| login_email := "a@b.com"; login_password := "secret" |}.

Definition sample_registration : RegisterRequest :=
  {| reg_email := "c@d.com"; reg_username := "cd"; reg_full_name := "C D";
     reg_password := "secret"; reg_phone := None; reg_address := None;
     reg_role := customer |}.

Definition sample_token : AuthResponse :=
  {| access_token := "tok123"; token_type := "bearer" |}.

(** A rejected call with the given status and a [detail] in its body. *)
Definition http_error (code : Z) : AxiosError :=
  {| response := Some {| status := code; data := JObj [("detail", JStr "rejected")] |} |}.

(** Every call succeeds. *)
Definition backend_ok : Backend :=
  {| reply_login := Resolved sample_token;
     reply_register := Resolved (UserProfile_val sample_profile);
     reply_me := Resolved sample_profile |}.

(** The credentials are accepted, the profile fetch is rejected with [code]. *)
Definition backend_profile_fails (code : Z) : Backend :=
  {| reply_login := Resolved sample_token;
     reply_register := Resolved JNull;
     reply_me := Rejected (http_error code) |}.

(** A store holding a token and the sample user as [setUser] writes it. *)
Definition sample_store : gmap string string :=
  {[ TOKEN_KEY := "tok123";
     USER_KEY := JSON_stringify reference_JSON (UserProfile_val sample_profile) ]}.

(** A user object with the given role. *)
Definition user_with_role (r : string) : JsVal :=
  JObj [("id", JNum (Dec 7 0)); ("role", JStr r)].

Definition session (u : JsVal) : World :=
  with_loading false (with_user u (page_load ∅)).

(** The world the response interceptor leaves after a rejected call. *)
Definition rejected_world (error : AxiosError) (w : World) : World :=
  if status_is_401 error
  then with_location_href "/login"
         (with_localStorage (delete "user") (with_localStorage (delete "token") w))
  else w.

(** The fields the [UserProfile] interface declares. *)
Definition UserProfile_keys : list string :=
  ["id"; "email"; "username"; "full_name"; "role"; "is_active"].

(** A store whose user record is not JSON, with and without a token. *)
Definition corrupt_store : gmap string string :=
  {[ TOKEN_KEY := "tok123"; USER_KEY := "{" ]}.

Definition corrupt_store_no_token : gmap string string :=
  {[ USER_KEY := "{" ]}.

(** A page load on an empty store, a successful login, then a logout. *)
Definition after_login : World :=
  run reference_JSON (ALogin backend_ok sample_credentials) (page_load ∅).

Definition after_logout : World :=
  run reference_JSON ALogout after_login.

(** * More of the code *)

(** ** [src/utils/error.ts] *)

(** [ApiError]: an [Error] whose optional [response] may carry
    [data.detail]. *)
Record ApiErrorData := { api_detail : option string }.
Record ApiErrorResponse := { api_data : option ApiErrorData }.
Record ApiError := {
  api_message : string;
  api_response : option ApiErrorResponse
}.

(** A caught value of type [unknown]: an [Error], or anything else. *)
Inductive Unknown :=
| IsError (e : ApiError)
| NotError (v : JsVal).

(** [a || b] on strings, [a] possibly [undefined]. *)
Definition str_or (a : option string) (b : string) : string :=
  match a with
  | Some s => if String.eqb s "" then b else s
  | None => b
  end.

(** [apiError.response?.data?.detail] *)
Definition response_detail (e : ApiError) : option string :=
  match api_response e with
  | Some r => match api_data r with
              | Some d => api_detail d
              | None => None
              end
  | None => None
  end.

Definition getErrorMessage (error : Unknown) : string :=
  match error with
  | IsError apiError =>
      str_or (Some (str_or (response_detail apiError) (api_message apiError)))
             "An error occurred"
  | NotError _ => "An error occurred"
  end.

(** ** [src/pages/LoginPage.tsx] *)

Module LoginPage.

(** What submitting the form ends in: a navigation, or the form's root
    error. *)
Inductive Reaction :=
| navigate (to : string)
| setError_root (message : JsVal).

(** [location.state?.from?.pathname || '/'], from the pathname the guard
    recorded, if any. *)
Definition from (state_from : option string) : string :=
  str_or state_from "/".

Definition onSubmit (json : JSON) (be : Backend) (state_from : option string)
  (data : LoginRequest) : M Reaction :=
  try_catch
    (AuthProvider.login json be data ;;
     ret (navigate (from state_from)))
    (fun error =>
       match AuthProvider.error_detail error with
       | Some d =>
           if truthy d then ret (setError_root d)
           else ret (setError_root (JStr "Login failed. Please try again."))
       | None => ret (setError_root (JStr "Login failed. Please try again."))
       end).

End LoginPage.

(** ** The navigation bar ([Navbar], in the file of the guard) *)

Module Navbar.

Inductive Icon := Home | ShoppingCart | BakeryDining | LocalShipping | AdminPanelSettings.

Record NavItem := {
  path : string;
  label : string;
  icon : Icon;
  roles : list string
}.

Definition navigationItems : list NavItem :=
  [ {| path := "/"; label := "Home"; icon := Home;
       roles := ["customer"; "baker"; "delivery_person"; "admin"] |};
    {| path := "/products"; label := "Products"; icon := ShoppingCart;
       roles := ["customer"; "baker"; "admin"] |};
    {| path := "/orders"; label := "Orders"; icon := ShoppingCart;
       roles := ["customer"; "baker"; "delivery_person"; "admin"] |};
    {| path := "/baker"; label := "Baker Dashboard"; icon := BakeryDining;
       roles := ["baker"] |};
    {| path := "/delivery"; label := "Delivery Dashboard"; icon := LocalShipping;
       roles := ["delivery_person"] |};
    {| path := "/admin"; label := "Admin Dashboard"; icon := AdminPanelSettings;
       roles := ["admin"] |} ].

(** [roles.includes(x)] *)
Definition includes (l : list string) (x : option JsVal) : bool :=
  existsb (strict_eq_str x) l.

(** [navigationItems.filter(item => !user || item.roles.includes(user.role))] *)
Definition filteredNavItems (user : JsVal) : list NavItem :=
  List.filter (fun item => negb (truthy user) || includes (roles item) (get_prop "role" user))
    navigationItems.

(** [logout(); navigate('/login')]: the result is where it navigates. *)
Definition handleLogout : M string :=
  AuthProvider.logout ;;
  ret "/login".

End Navbar.

(** ** The route table of [src/App.tsx] *)

Module App.

Inductive Page :=
| LoginPage | RegisterPage | Dashboard | ProductsPage | OrdersPage | ProfilePage
| BakerDashboard | DeliveryDashboard | AdminDashboard.

(** The element of a route: a page, a guarded page, or the catch-all
    redirect. *)
Inductive RouteElement :=
| Public (page : Page)
| Guarded (requiredRole : option UserRole) (page : Page).

(** The routes, by their path as written. *)
Definition routes : list (string * RouteElement) :=
  [ ("/login", Public LoginPage);
    ("/register", Public RegisterPage);
    ("/", Guarded None Dashboard);
    ("/products", Guarded None ProductsPage);
    ("/orders", Guarded None OrdersPage);
    ("/profile", Guarded None ProfilePage);
    ("/baker", Guarded (Some baker) BakerDashboard);
    ("/delivery", Guarded (Some delivery_person) DeliveryDashboard);
    ("/admin", Guarded (Some admin) AdminDashboard) ].

Fixpoint find_route (pathname : string) (l : list (string * RouteElement))
  : option RouteElement :=
  match l with
  | [] => None
  | (p, e) :: rest => if String.eqb pathname p then Some e else find_route pathname rest
  end.

(** What a pathname written as in the table renders in world [w]; any
    other pathname falls to the catch-all route, a redirect to the home. *)
Definition render (w : World) (pathname : string) : Element Page :=
  match find_route pathname routes with
  | Some (Public page) => Children page
  | Some (Guarded requiredRole page) =>
      ProtectedRoute (useAuth w) pathname page requiredRole
  | None => Navigate "/" None
  end.

End App.

(** ** The order listings of [src/services/api.ts] *)

(** A value of a filter object. *)
Inductive FilterValue :=
| FUndefined
| FNull
| FString (s : string)
| FNumber (n : number).

Module URLSearchParams.

(** The bytes the form-urlencoded serializer leaves as they are: ASCII
    letters and digits, and the four characters of [*-._]. *)
Definition unreserved (c : ascii) : bool :=
  let n := N_of_ascii c in
  (((48 <=? n) && (n <=? 57)) || ((65 <=? n) && (n <=? 90)) || ((97 <=? n) && (n <=? 122))
   || (n =? 42) || (n =? 45) || (n =? 46) || (n =? 95))%N.

Definition upper_hex (n : N) : ascii :=
  if (n <? 10)%N then byte (48 + n) else byte (55 + n).

Definition encode_byte (c : ascii) : list ascii :=
  if unreserved c then [c]
  else if Ascii.eqb c " " then ["+"%char]
  else ["%"%char; upper_hex (N_of_ascii c / 16); upper_hex (N_of_ascii c mod 16)].

Definition encode (s : string) : list ascii :=
  flat_map encode_byte (list_ascii_of_string s).

Definition serialize_pair (kv : string * string) : list ascii :=
  encode (fst kv) ++ "="%char :: encode (snd kv).

(** [params.toString()]: the pairs joined by [&]. *)
Fixpoint serialize (pairs : list (string * string)) : list ascii :=
  match pairs with
  | [] => []
  | [kv] => serialize_pair kv
  | kv :: rest => serialize_pair kv ++ "&"%char :: serialize rest
  end.

Definition toString (pairs : list (string * string)) : string :=
  string_of_list_ascii (serialize pairs).

End URLSearchParams.

Module Orders.
Section WithPlatform.
(** [Number.prototype.toString], the platform's. *)
Variable Number_toString : number -> string.

(** [value.toString()] of a value that is neither [undefined] nor [null]. *)
Definition value_toString (v : FilterValue) : option string :=
  match v with
  | FUndefined => None
  | FNull => None
  | FString s => Some s
  | FNumber n => Some (Number_toString n)
  end.

(** The pairs appended to [params], for the entries of [filters] in their
    order. *)
Fixpoint params_of (entries : list (string * FilterValue)) : list (string * string) :=
  match entries with
  | [] => []
  | (key, value) :: rest =>
      match value_toString value with
      | Some s => (key, s) :: params_of rest
      | None => params_of rest
      end
  end.

Definition query (filters : option (list (string * FilterValue))) : string :=
  URLSearchParams.toString
    (match filters with
     | Some entries => params_of entries
     | None => []
     end).

Definition getOrders {Order : Type} (reply : Outcome (list Order))
  (filters : option (list (string * FilterValue))) : M (list Order) :=
  ApiService.request reply GET ("/api/orders/?" +:+ query filters) JNull.

Definition getAllOrders {Order : Type} (reply : Outcome (list Order))
  (filters : option (list (string * FilterValue))) : M (list Order) :=
  ApiService.request reply GET ("/api/orders/admin/all?" +:+ query filters) JNull.

End WithPlatform.
End Orders.

(** ** [getDashboardStats] of [src/services/api.ts] *)

Module Dashboard.
Section WithNumbers.
(** JavaScript's numbers with their addition, for the revenue. *)
Variable num : Type.
Variable num_zero : num.
Variable num_add : num -> num -> num.
(** The orders and users of the responses, by the fields that are read. *)
Variable Order : Type.
Variable order_status : Order -> string.
Variable order_final_amount : Order -> num.
Variable User : Type.
Variable user_role : User -> string.
Variable Number_toString : number -> string.

Record DashboardStats := {
  total_orders : nat;
  total_revenue : num;
  total_customers : nat;
  pending_orders : nat;
  completed_orders : nat;
  completed_deliveries : nat
}.

Definition getUsers (reply : Outcome (list User)) : M (list User) :=
  ApiService.request reply GET "/api/users/" JNull.

Definition count {A} (f : A -> bool) (l : list A) : nat :=
  List.length (List.filter f l).

Definition getDashboardStats (reply_orders : Outcome (list Order))
  (reply_users : Outcome (list User)) : M DashboardStats :=
  orders <- Orders.getAllOrders Number_toString reply_orders None ;;
  users <- getUsers reply_users ;;
  ret {| total_orders := List.length orders;
         total_revenue :=
           fold_left (fun sum order => num_add sum (order_final_amount order)) orders num_zero;
         total_customers := count (fun u => String.eqb (user_role u) "customer") users;
         pending_orders := count (fun o => String.eqb (order_status o) "pending") orders;
         completed_orders :=
           count (fun o => existsb (String.eqb (order_status o)) ["delivered"; "completed"])
             orders;
         completed_deliveries :=
           count (fun o => String.eqb (order_status o) "delivered") orders |}.

End WithNumbers.
End Dashboard.

(** The statuses [OrderStatus] declares. *)
Definition OrderStatus_values : list string :=
  ["pending"; "confirmed"; "preparing"; "ready"; "out_for_delivery"; "delivered"; "cancelled"].

(** ** The orders query of [OrdersPage] *)

Definition OrdersPage_queryFn {Order : Type} (Number_toString : number -> string)
  (reply reply_all : Outcome (list Order)) : M (list Order) :=
  fun w =>
    let user_role := get_prop "role" (user w) in
    if strict_eq_str user_role "admin" || strict_eq_str user_role "baker"
    then Orders.getAllOrders Number_toString reply_all None w
    else Orders.getOrders Number_toString reply None w.

(** ** Notions used to state properties of the order listings *)

(** A character an encoded name or value is made of. *)
Definition encoded_char (c : ascii) : bool :=
  URLSearchParams.unreserved c || Ascii.eqb c "+" || Ascii.eqb c "%".

(** A filter value that is neither [undefined] nor [null]. *)
Definition defined (v : FilterValue) : bool :=
  match v with
  | FUndefined | FNull => false
  | _ => true
  end.

Definition occurrences (c : ascii) (l : list ascii) : nat :=
  List.length (List.filter (Ascii.eqb c) l).

(** ** More sample data *)

(** Every call is rejected with [code]. *)
Definition backend_rejects (code : Z) : Backend :=
  {| reply_login := Rejected (http_error code);
     reply_register := Rejected (http_error code);
     reply_me := Rejected (http_error code) |}.

Definition baker_dashboard_item : Navbar.NavItem :=
  {| Navbar.path := "/baker"; Navbar.label := "Baker Dashboard";
     Navbar.icon := Navbar.BakeryDining; Navbar.roles := ["baker"] |}.

(** Orders as pairs of a status and an amount, users as their role. *)
Definition sample_orders : list (string * nat) :=
  [("pending", 10%nat); ("delivered", 25%nat); ("cancelled", 5%nat); ("delivered", 7%nat)].

Definition sample_users : list string := ["customer"; "baker"; "customer"].

Definition sample_filters : list (string * FilterValue) :=
  [("status", FString "out_for_delivery"); ("date_from", FUndefined);
   ("date_to", FString "2024-01-31 & more=1"); ("customer_id", FNumber (Dec 7 0))].

(** * Properties *)

Lemma strict_eq_str_true (x : option JsVal) (s : string) :
  strict_eq_str x s = true <-> x = Some (JStr s).
Proof.
  unfold strict_eq_str. split.
  - destruct x as [[ | | | t | | ] | ]; try discriminate.
    intros H. apply String.eqb_eq in H. now subst.
  - intros ->. apply String.eqb_refl.
Qed.

Lemma strict_eq_str_false (x : option JsVal) (s : string) :
  strict_eq_str x s = false <-> x <> Some (JStr s).
Proof.
  rewrite <- strict_eq_str_true. destruct (strict_eq_str x s); split; congruence.
Qed.

Lemma get_prop_null (k : string) : get_prop k JNull = None.
Proof. reflexivity. Qed.

Lemma truthy_str_true (o : option string) :
  truthy_str o = true <-> exists t, o = Some t /\ t <> "".
Proof.
  destruct o as [t | ]; simpl.
  - rewrite negb_true_iff, String.eqb_neq. split.
    + intros H. now exists t.
    + intros (t' & [= <-] & H). exact H.
  - split; [discriminate | intros (t & H & _); discriminate].
Qed.

(** ** The token/user store *)

(** What [getUser] does on every store: nothing or an empty string stored
    gives [null]; otherwise the outcome is that of [JSON.parse]. *)
Lemma getUser_unfold (json : JSON) (w : World) :
  authUtils.getUser json w =
  match localStorage w !! USER_KEY with
  | Some s =>
      if String.eqb s "" then (Normal JNull, w)
      else match JSON_parse json s with
           | Some v => (Normal v, w)
           | None => (Throw ESyntaxError, w)
           end
  | None => (Normal JNull, w)
  end.
Proof.
  unfold authUtils.getUser, bind, localStorage_getItem, read.
  destruct (localStorage w !! USER_KEY) as [s | ]; [ | reflexivity].
  simpl. destruct (String.eqb s ""); simpl; [reflexivity | ].
  destruct (JSON_parse json s); reflexivity.
Qed.

(** C3, as amended. [getUser] returns the deserialized value when parsing
    succeeds and [null] when no value, or an empty one, is stored; when
    deserialization fails it throws the parser's [SyntaxError] to its
    caller, and startup restoration over such a record throws as well,
    before it settles: the world is left as it was, [loading] included. *)
Theorem getUser_outcomes (json : JSON) (w : World) :
  (forall s v, localStorage w !! USER_KEY = Some s -> s <> "" ->
     JSON_parse json s = Some v ->
     authUtils.getUser json w = (Normal v, w)) /\
  (localStorage w !! USER_KEY = None \/ localStorage w !! USER_KEY = Some "" ->
     authUtils.getUser json w = (Normal JNull, w)) /\
  (forall s, localStorage w !! USER_KEY = Some s -> s <> "" ->
     JSON_parse json s = None ->
     authUtils.getUser json w = (Throw ESyntaxError, w) /\
     forall be, AuthProvider.initAuth json be w = (Throw ESyntaxError, w)).
Proof.
  split; [ | split].
  - intros s v Hs Hne Hp. rewrite getUser_unfold, Hs.
    apply String.eqb_neq in Hne. now rewrite Hne, Hp.
  - intros [H | H]; rewrite getUser_unfold, H; reflexivity.
  - intros s Hs Hne Hp.
    assert (Hg : authUtils.getUser json w = (Throw ESyntaxError, w)).
    { rewrite getUser_unfold, Hs. apply String.eqb_neq in Hne. now rewrite Hne, Hp. }
    split; [exact Hg | ].
    intros be. unfold AuthProvider.initAuth, bind at 1 2 3.
    unfold authUtils.getToken, localStorage_getItem, read.
    now rewrite Hg.
Qed.

(** X23, P1 of the specification: once [logout] has cleared the store, both
    readers return absent, whatever was set before. *)
Lemma authUtils_logout_clears (json : JSON) (w : World) :
  let w' := snd (authUtils.logout w) in
  fst (authUtils.getToken w') = Normal None /\
  fst (authUtils.getUser json w') = Normal JNull.
Proof.
  cbv zeta. rewrite getUser_unfold.
  unfold authUtils.logout, authUtils.removeToken, authUtils.removeUser, authUtils.getToken,
    localStorage_removeItem, localStorage_getItem, bind, effect, read.
  unfold TOKEN_KEY, USER_KEY. simpl. split; now simplify_map_eq.
Qed.

(** ** The session predicates *)

(** C8. [hasRole r] is true exactly when a current user exists and its
    role is the string [r]; it is false for an unauthenticated session,
    and [hasRole "admin"] is false for a user of any other role. The
    store's [hasRole] decides the same way on the user [getUser] returns. *)
Theorem hasRole_exact (w : World) (r : string) :
  (AuthProvider.hasRole w r = true <->
     user w <> JNull /\ get_prop "role" (user w) = Some (JStr r)) /\
  (user w = JNull -> AuthProvider.hasRole w r = false) /\
  (forall s, get_prop "role" (user w) = Some (JStr s) -> s <> "admin" ->
     AuthProvider.hasRole w "admin" = false) /\
  (forall json u, authUtils.getUser json w = (Normal u, w) ->
     authUtils.hasRole json r w = (Normal (strict_eq_str (get_prop "role" u) r), w) /\
     (strict_eq_str (get_prop "role" u) r = true <->
        u <> JNull /\ get_prop "role" u = Some (JStr r))).
Proof.
  unfold AuthProvider.hasRole. split; [ | split; [ | split]].
  - rewrite strict_eq_str_true. split.
    + intros H. split; [ | exact H]. intros E. rewrite E in H. discriminate.
    + intros [_ H]. exact H.
  - intros ->. reflexivity.
  - intros s Hs Hne. apply strict_eq_str_false. rewrite Hs. congruence.
  - intros json u Hu. split.
    + unfold authUtils.hasRole, bind. now rewrite Hu.
    + rewrite strict_eq_str_true. split.
      * intros H. split; [ | exact H]. intros E. rewrite E in H. discriminate.
      * intros [_ H]. exact H.
Qed.

(** ** The route guard *)

Lemma role_home_mapping :
  role_home (Some (JStr "admin")) = "/admin" /\
  role_home (Some (JStr "baker")) = "/baker" /\
  role_home (Some (JStr "delivery_person")) = "/delivery" /\
  (forall x, x <> Some (JStr "admin") -> x <> Some (JStr "baker") ->
     x <> Some (JStr "delivery_person") -> role_home x = "/").
Proof.
  repeat split; try reflexivity.
  intros x Ha Hb Hd. unfold role_home.
  destruct x as [[ | | | r | | ] | ]; try reflexivity.
  destruct (String.eqb_spec r "admin") as [-> | _]; [congruence | ].
  destruct (String.eqb_spec r "baker") as [-> | _]; [congruence | ].
  destruct (String.eqb_spec r "delivery_person") as [-> | _]; [congruence | ].
  reflexivity.
Qed.

Lemma role_home_not_login (x : option JsVal) : role_home x <> "/login".
Proof.
  unfold role_home. destruct x as [[ | | | r | | ] | ]; try discriminate.
  destruct (String.eqb r "admin"); [discriminate | ].
  destruct (String.eqb r "baker"); [discriminate | ].
  destruct (String.eqb r "delivery_person"); discriminate.
Qed.

(** The [switch] of the guard computes the role-home mapping. *)
Lemma switch_role_home (x : option JsVal) :
  (if strict_eq_str x "admin" then "/admin"
   else if strict_eq_str x "baker" then "/baker"
   else if strict_eq_str x "delivery_person" then "/delivery"
   else "/") = role_home x.
Proof. destruct x as [[ | | | r | | ] | ]; reflexivity. Qed.

(** C4. The guard's decision, for every session state, optional required
    role and destination: while the session is restoring it renders the
    loading indicator; else, when not authenticated, it redirects to the
    login view and records the destination asked for; else, when a role is
    required and the user's role is not exactly that role, it redirects to
    the user's role home (admin, baker and delivery person to their own
    home, anything else to the default home), which is never the login
    view; else it renders the destination. *)
Theorem ProtectedRoute_decision {View : Type} (ctx : AuthContext) (location : string)
  (children : View) (requiredRole : option UserRole) :
  let user_role := get_prop "role" (ctx_user ctx) in
  let out := ProtectedRoute ctx location children requiredRole in
  (ctx_loading ctx = true -> out = Spinner) /\
  (ctx_loading ctx = false -> ctx_isAuthenticated ctx = false ->
     out = Navigate "/login" (Some location)) /\
  (ctx_loading ctx = false -> ctx_isAuthenticated ctx = true ->
     forall required, requiredRole = Some required -> ~ role_is user_role required ->
     out = Navigate (role_home user_role) None /\ role_home user_role <> "/login") /\
  (ctx_loading ctx = false -> ctx_isAuthenticated ctx = true ->
     (requiredRole = None \/
      exists required, requiredRole = Some required /\ role_is user_role required) ->
     out = Children children).
Proof.
  unfold ProtectedRoute, role_is. cbv zeta. repeat apply conj.
  - intros ->. reflexivity.
  - intros -> ->. reflexivity.
  - intros -> -> required -> Hne. split; [ | apply role_home_not_login].
    apply strict_eq_str_false in Hne. simpl. rewrite Hne. simpl.
    rewrite <- switch_role_home.
    destruct (strict_eq_str _ "admin"); [reflexivity | ].
    destruct (strict_eq_str _ "baker"); [reflexivity | ].
    destruct (strict_eq_str _ "delivery_person"); reflexivity.
  - intros -> -> [-> | (required & -> & Heq)]; [reflexivity | ].
    apply strict_eq_str_true in Heq. simpl. now rewrite Heq.
Qed.

(** P5 of the specification: a route that requires [baker], visited by a
    customer, a delivery person, an admin and a baker. *)
Example ProtectedRoute_baker_route :
  let visit r := ProtectedRoute (useAuth (session (user_with_role r))) "/baker" tt (Some baker) in
  visit "customer" = Navigate "/" None /\
  visit "delivery_person" = Navigate "/delivery" None /\
  visit "admin" = Navigate "/admin" None /\
  visit "baker" = Children tt.
Proof. repeat split. Qed.

(** An unauthenticated visitor asking for [/orders] is sent to the login
    view, and a customer asking for the admin view to the default home. *)
Example ProtectedRoute_scenarios :
  ProtectedRoute (useAuth (session JNull)) "/orders" tt None = Navigate "/login" (Some "/orders") /\
  ProtectedRoute (useAuth (session (user_with_role "customer"))) "/admin" tt (Some admin)
  = Navigate "/" None /\
  ProtectedRoute (useAuth (page_load sample_store)) "/orders" tt None = Spinner.
Proof. repeat split. Qed.

(** ** Calls through the API client *)

Lemma request_interceptor_outgoing (w : World) (method : Method) (url : string) (data : JsVal) :
  ApiService.request_interceptor
    {| req_method := method; req_url := url;
       req_headers := ApiService.instance_headers ∪ defaults_common w; req_data := data |} w
  = (Normal (outgoing w method url data), w).
Proof.
  unfold ApiService.request_interceptor, outgoing, bind, localStorage_getItem, read, ret.
  destruct (localStorage w !! "token") as [t | ]; [ | reflexivity].
  simpl. destruct (String.eqb t ""); reflexivity.
Qed.

Lemma request_resolved {A} (d : A) (method : Method) (url : string) (data : JsVal) (w : World) :
  ApiService.request (Resolved d) method url data w
  = (Normal d, with_sent (outgoing w method url data) w).
Proof.
  unfold ApiService.request, bind at 1 2. unfold read at 1.
  rewrite request_interceptor_outgoing. reflexivity.
Qed.

Lemma request_rejected {A} (error : AxiosError) (method : Method) (url : string)
  (data : JsVal) (w : World) :
  @ApiService.request A (Rejected error) method url data w
  = (Throw (EAxios error),
     rejected_world error (with_sent (outgoing w method url data) w)).
Proof.
  unfold ApiService.request, bind at 1 2. unfold read at 1.
  rewrite request_interceptor_outgoing.
  unfold ApiService.response_rejected, bind, effect, localStorage_removeItem, throw, ret.
  unfold rejected_world. simpl. destruct (status_is_401 error); reflexivity.
Qed.

Ltac js_unfold :=
  unfold AuthProvider.login, AuthProvider.register, AuthProvider.logout,
    AuthProvider.initAuth, ApiService.login, ApiService.register,
    ApiService.getCurrentUser, ApiService.setAuthToken,
    authUtils.setToken, authUtils.setUser, authUtils.getToken, authUtils.logout,
    authUtils.removeToken, authUtils.removeUser,
    AuthProvider.setUser, AuthProvider.setLoading, AuthProvider.toast,
    localStorage_getItem, localStorage_setItem, localStorage_removeItem,
    try_finally, try_catch, bind, effect, read, ret, throw.


Ltac js_run :=
  js_unfold;
  repeat first
    [ rewrite request_resolved
    | rewrite request_rejected
    | rewrite getUser_unfold ].

Ltac store_lookup := unfold TOKEN_KEY, USER_KEY; simpl; simplify_map_eq; auto.

Lemma rejected_world_user (error : AxiosError) (w : World) :
  user (rejected_world error w) = user w.
Proof. unfold rejected_world. now destruct (status_is_401 error). Qed.

Lemma request_user {A} (reply : Outcome A) (method : Method) (url : string)
  (data : JsVal) (w : World) :
  user (snd (ApiService.request reply method url data w)) = user w.
Proof.
  destruct reply as [d | error]; js_run; [reflexivity | ].
  simpl. now rewrite rejected_world_user.
Qed.

(** X1. Token injection: a call sends one request; it carries the stored token
    as bearer when that token is not empty, and otherwise whatever
    [Authorization] default [setAuthToken] has left on the instance. *)
Lemma request_authorization {A} (reply : Outcome A) (method : Method) (url : string)
  (data : JsVal) (w : World) :
  sent (snd (ApiService.request reply method url data w))
  = sent w ++ [outgoing w method url data] /\
  authorization (outgoing w method url data) =
    match localStorage w !! "token" with
    | Some t => if String.eqb t "" then defaults_common w !! "Authorization"
                else Some ("Bearer " +:+ t)
    | None => defaults_common w !! "Authorization"
    end.
Proof.
  split.
  - destruct reply as [d | error]; js_run; [reflexivity | ].
    unfold rejected_world. simpl. now destruct (status_is_401 error).
  - unfold authorization, outgoing. simpl.
    assert (H : (ApiService.instance_headers ∪ defaults_common w) !! "Authorization"
                = defaults_common w !! "Authorization").
    { unfold ApiService.instance_headers. rewrite lookup_union_r; [reflexivity | ].
      now rewrite lookup_singleton_ne. }
    destruct (localStorage w !! "token") as [t | ]; [ | exact H].
    destruct (String.eqb t ""); [exact H | ]. now rewrite lookup_insert_eq.
Qed.

(** C7, at the input where the code departs from it. After a successful
    login and a logout in the same page, no token is in the store, yet the
    next request still carries [Authorization: Bearer tok123]: [login] put
    the header on the instance's defaults through [setAuthToken], and
    [logout] clears the store only. *)
Theorem stale_authorization_after_logout :
  localStorage after_logout !! TOKEN_KEY = None /\
  authorization (outgoing after_logout GET "/api/products/" JNull) = Some "Bearer tok123" /\
  authorization <$>
    sent (run reference_JSON (ACall (Resolved JNull) GET "/api/products/" JNull) after_logout)
  = [None; Some "Bearer tok123"; Some "Bearer tok123"].
Proof. vm_compute. repeat split. Qed.

(** C2, as amended. A call whose response has status 401 removes the token
    and the user from the store, assigns the login view to
    [window.location.href], and sends nothing further (the request log grows
    by the one request, no retry); the error is then rejected to the
    caller unchanged. *)
Theorem unauthorized_response {A : Type} (error : AxiosError) (method : Method)
  (url : string) (data : JsVal) (w : World) :
  status_is_401 error = true ->
  let r := @ApiService.request A (Rejected error) method url data w in
  localStorage (snd r) !! TOKEN_KEY = None /\
  localStorage (snd r) !! USER_KEY = None /\
  location_href (snd r) = Some "/login" /\
  sent (snd r) = sent w ++ [outgoing w method url data] /\
  fst r = Throw (EAxios error).
Proof.
  intros H. cbv zeta. rewrite request_rejected. unfold rejected_world. rewrite H.
  repeat split; store_lookup.
Qed.

(** ** Login and registration *)

(** C1, as amended. When the credentials exchange succeeds and the profile
    fetch fails, [login] rethrows that failure with [loading] false, the
    current user left as it was and no user record written. The token it
    persisted before the fetch is removed again only when the failure is a
    401 response (the response interceptor then clears the store and
    navigates to the login view); after any other failure the token stays
    in the store. *)
Theorem login_profile_failure (json : JSON) (be : Backend) (credentials : LoginRequest)
  (w : World) (resp : AuthResponse) (error : AxiosError) :
  reply_login be = Resolved resp ->
  reply_me be = Rejected error ->
  let r := AuthProvider.login json be credentials w in
  fst r = Throw (EAxios error) /\
  loading (snd r) = false /\
  user (snd r) = user w /\
  localStorage (snd r) !! USER_KEY =
    (if status_is_401 error then None else localStorage w !! USER_KEY) /\
  localStorage (snd r) !! TOKEN_KEY =
    (if status_is_401 error then None else Some (access_token resp)) /\
  location_href (snd r) =
    (if status_is_401 error then Some "/login" else location_href w).
Proof.
  intros Hl Hm. cbv zeta. js_unfold. rewrite Hl, Hm.
  rewrite request_resolved.
  destruct (truthy_str (Some (access_token resp))); rewrite request_rejected;
    unfold rejected_world; destruct (status_is_401 error); repeat split; store_lookup.
Qed.

Lemma UserProfile_val_keys (p : UserProfile) (k : string) :
  get_prop k (UserProfile_val p) <> None <-> In k UserProfile_keys.
Proof.
  unfold UserProfile_val, UserProfile_keys, get_prop, assoc_get. simpl.
  repeat match goal with
         | |- context [String.eqb k ?s] =>
             destruct (String.eqb_spec k s) as [-> | ?];
             [split; [intros _; tauto | discriminate] | ]
         end.
  split; [intros H; now contradiction H | intros H; intuition congruence].
Qed.

(** C10. After a successful login the current user is exactly the profile
    the current-user endpoint returned, and the store holds that profile
    serialized together with the token. Its fields are the six of
    [UserProfile]: [created_at], [phone] and [address] are absent. *)
Theorem login_success (json : JSON) (be : Backend) (credentials : LoginRequest)
  (w : World) (resp : AuthResponse) (p : UserProfile) :
  reply_login be = Resolved resp ->
  reply_me be = Resolved p ->
  let r := AuthProvider.login json be credentials w in
  fst r = Normal tt /\
  user (snd r) = UserProfile_val p /\
  localStorage (snd r) !! USER_KEY = Some (JSON_stringify json (UserProfile_val p)) /\
  localStorage (snd r) !! TOKEN_KEY = Some (access_token resp) /\
  loading (snd r) = false /\
  AuthProvider.isAuthenticated (snd r) = true /\
  (forall k, get_prop k (user (snd r)) <> None <-> In k UserProfile_keys) /\
  get_prop "created_at" (user (snd r)) = None /\
  get_prop "phone" (user (snd r)) = None /\
  get_prop "address" (user (snd r)) = None.
Proof.
  intros Hl Hm. cbv zeta. js_unfold. rewrite Hl, Hm, request_resolved.
  destruct (truthy_str (Some (access_token resp))); rewrite request_resolved;
    simpl;
    (repeat apply conj; [store_lookup .. | apply UserProfile_val_keys | | | ]; reflexivity).
Qed.

(** C9, as amended. A successful [register] leaves the current user, the
    store, the default headers and the location as they were; it sends the
    one account-creation request and shows one notification; [loading]
    ends false, whatever it was before. *)
Theorem register_frame (be : Backend) (userData : RegisterRequest) (w : World)
  (newUser : JsVal) :
  reply_register be = Resolved newUser ->
  let r := AuthProvider.register be userData w in
  fst r = Normal tt /\
  user (snd r) = user w /\
  localStorage (snd r) = localStorage w /\
  defaults_common (snd r) = defaults_common w /\
  location_href (snd r) = location_href w /\
  loading (snd r) = false /\
  sent (snd r) =
    sent w ++ [outgoing w POST "/api/auth/register" (RegisterRequest_val userData)] /\
  toasts (snd r) =
    toasts w ++ [toast_success (JStr "Registration successful! Please login.")].
Proof.
  intros H. cbv zeta. js_unfold. rewrite H, request_resolved. repeat split.
Qed.

(** ** Startup restoration *)

Lemma initAuth_unfold (json : JSON) (be : Backend) (w : World) :
  AuthProvider.initAuth json be w =
  match authUtils.getUser json w with
  | (Throw e, w1) => (Throw e, w1)
  | (Normal u, w1) =>
      if truthy_str (localStorage w !! TOKEN_KEY) && truthy u then
        let w2 := with_sent (outgoing w1 GET "/api/auth/me" JNull) w1 in
        match reply_me be with
        | Resolved p => (Normal tt, with_loading false (with_user u w2))
        | Rejected error =>
            (Normal tt,
             with_loading false
               (with_user JNull
                  (with_localStorage (delete USER_KEY)
                     (with_localStorage (delete TOKEN_KEY) (rejected_world error w2)))))
        end
      else (Normal tt, with_loading false w1)
  end.
Proof.
  unfold AuthProvider.initAuth, bind at 1 2 3.
  unfold authUtils.getToken at 1, localStorage_getItem at 1, read at 1.
  destruct (authUtils.getUser json w) as [[u | e] w1]; [ | reflexivity].
  destruct (truthy_str (localStorage w !! TOKEN_KEY) && truthy u); [ | reflexivity].
  js_unfold.
  destruct (reply_me be) as [p | error]; js_run; reflexivity.
Qed.

(** C5, as amended. On a page load whose stored user entry deserializes
    ([getUser] returns [u]): [initAuth] completes with [loading] false.
    With a token and a cached user persisted (a non-empty token, a truthy
    [u]), a successful validation call makes [u] the current user and
    leaves the store as it was, and a failed one, whatever the error,
    clears token and user from the store and leaves the session
    unauthenticated. With the token or the cached user absent, no call is
    made and the session is unauthenticated. *)
Theorem initAuth_restoration (json : JSON) (be : Backend) (storage : gmap string string)
  (u : JsVal) :
  authUtils.getUser json (page_load storage) = (Normal u, page_load storage) ->
  let token := storage !! TOKEN_KEY in
  let r := AuthProvider.initAuth json be (page_load storage) in
  fst r = Normal tt /\
  loading (snd r) = false /\
  (truthy_str token = true -> truthy u = true ->
     forall p, reply_me be = Resolved p ->
     user (snd r) = u /\
     AuthProvider.isAuthenticated (snd r) = true /\
     localStorage (snd r) = storage /\
     sent (snd r) = [outgoing (page_load storage) GET "/api/auth/me" JNull]) /\
  (truthy_str token = true -> truthy u = true ->
     forall error, reply_me be = Rejected error ->
     user (snd r) = JNull /\
     AuthProvider.isAuthenticated (snd r) = false /\
     localStorage (snd r) !! TOKEN_KEY = None /\
     localStorage (snd r) !! USER_KEY = None) /\
  (truthy_str token = false \/ truthy u = false ->
     user (snd r) = JNull /\
     AuthProvider.isAuthenticated (snd r) = false /\
     localStorage (snd r) = storage /\
     sent (snd r) = []).
Proof.
  intros Hu. cbv zeta. rewrite initAuth_unfold, Hu. cbn [localStorage page_load].
  repeat apply conj.
  - destruct (_ && _); [destruct (reply_me be) | ]; reflexivity.
  - destruct (_ && _); [destruct (reply_me be) | ]; reflexivity.
  - intros -> Hv p ->. rewrite Hv. simpl. repeat split.
    unfold AuthProvider.isAuthenticated. exact Hv.
  - intros -> -> error ->. simpl. unfold rejected_world.
    destruct (status_is_401 error); repeat split; store_lookup.
  - intros H.
    assert (E : truthy_str (storage !! TOKEN_KEY) && truthy u = false).
    { destruct H as [-> | ->]; [reflexivity | apply andb_false_r]. }
    rewrite E. repeat split.
Qed.

(** ** The session invariant *)

(** Every operation leaves the current user as it was, sets it to [null],
    or sets it to a truthy value. *)
Lemma run_user (json : JSON) (a : Action) (w : World) :
  user (run json a w) = user w \/
  user (run json a w) = JNull \/
  truthy (user (run json a w)) = true.
Proof.
  destruct a as [be | be credentials | be userData | | reply method url data | k v | ]; simpl.
  - rewrite initAuth_unfold, getUser_unfold.
    destruct (localStorage w !! USER_KEY) as [s | ];
      [destruct (String.eqb s EmptyString); [ | destruct (JSON_parse json s) as [u | ]] | ];
      try (destruct (truthy_str (localStorage w !! TOKEN_KEY)); simpl; now auto).
    destruct (truthy_str (localStorage w !! TOKEN_KEY)); simpl; auto.
    destruct (truthy u) eqn:Hu; simpl; auto.
    destruct (reply_me be); simpl; auto.
  - js_unfold. destruct (reply_login be) as [resp | e1]; js_run.
    + destruct (truthy_str (Some (access_token resp)));
        (destruct (reply_me be) as [p | e2]; js_run;
         [ simpl; auto | simpl; rewrite rejected_world_user; simpl; auto ]).
    + simpl. rewrite rejected_world_user. simpl. auto.
  - js_unfold. destruct (reply_register be) as [d | e]; js_run; simpl; auto.
    rewrite rejected_world_user. simpl. auto.
  - auto.
  - left. apply request_user.
  - auto.
  - auto.
Qed.

Lemma reachable_user (json : JSON) (w : World) :
  reachable json w -> user w = JNull \/ truthy (user w) = true.
Proof.
  induction 1 as [storage | a w Hw IH].
  - now left.
  - destruct (run_user json a w) as [E | [E | E]];
      [rewrite E; exact IH | now left | now right].
Qed.

(** C6. In every world a run of the application reaches, the
    [isAuthenticated] the guard receives is [true] exactly when the current
    user is not [null], and [false] exactly when it is [null]. *)
Theorem isAuthenticated_iff_user (json : JSON) (w : World) :
  reachable json w ->
  ctx_isAuthenticated (useAuth w) = AuthProvider.isAuthenticated w /\
  (AuthProvider.isAuthenticated w = true <-> user w <> JNull) /\
  (AuthProvider.isAuthenticated w = false <-> user w = JNull).
Proof.
  intros Hw. split; [reflexivity | ].
  unfold AuthProvider.isAuthenticated.
  destruct (reachable_user json w Hw) as [E | E].
  - rewrite E. simpl. split; split; congruence.
  - rewrite E. split; split; try congruence.
    + intros _ N. rewrite N in E. discriminate.
    + intros N. rewrite N in E. discriminate.
Qed.

(** * The claims on concrete runs *)

(** C1 as stated fails. The credentials exchange returns [tok123] and the
    profile fetch is rejected with status 500: [login] rethrows and the
    session is unauthenticated, but [tok123] is still in the store. *)
Lemma login_leaves_token_after_profile_failure :
  let be := backend_profile_fails 500 in
  let r := AuthProvider.login reference_JSON be sample_credentials (page_load ∅) in
  reply_login be = Resolved sample_token /\
  reply_me be = Rejected (http_error 500) /\
  fst r = Throw (EAxios (http_error 500)) /\
  user (snd r) = JNull /\
  localStorage (snd r) !! TOKEN_KEY = Some "tok123" /\
  localStorage (snd r) !! TOKEN_KEY <> None.
Proof. vm_compute. repeat split. discriminate. Qed.

(** The amended C1 on a profile fetch rejected with 401. *)
Lemma login_profile_failure_witness :
  let r := AuthProvider.login reference_JSON (backend_profile_fails 401) sample_credentials
             (page_load ∅) in
  fst r = Throw (EAxios (http_error 401)) /\
  loading (snd r) = false /\
  user (snd r) = JNull /\
  localStorage (snd r) !! USER_KEY = None /\
  localStorage (snd r) !! TOKEN_KEY = None /\
  location_href (snd r) = Some "/login".
Proof.
  apply (login_profile_failure reference_JSON (backend_profile_fails 401) sample_credentials
           (page_load ∅) sample_token (http_error 401)); reflexivity.
Defined.

(** C2 as stated fails in its last part. The profile fetch of a stored
    session receives a 401: the store is cleared and the login view is
    forced, and the call is still rejected to its caller with that error;
    inside [login], the caller's handler runs on it and shows its
    notification. *)
Lemma unauthorized_is_rejected_to_caller :
  let r := ApiService.getCurrentUser (backend_profile_fails 401) (page_load sample_store) in
  let l := AuthProvider.login reference_JSON (backend_profile_fails 401) sample_credentials
             (page_load ∅) in
  status_is_401 (http_error 401) = true /\
  fst r = Throw (EAxios (http_error 401)) /\
  localStorage (snd r) = ∅ /\
  location_href (snd r) = Some "/login" /\
  fst l = Throw (EAxios (http_error 401)) /\
  toasts (snd l) = [toast_error (JStr "rejected")].
Proof. vm_compute. repeat split. Qed.

(** The amended C2 on the profile fetch of a stored session. *)
Lemma unauthorized_response_witness :
  let r := ApiService.getCurrentUser (backend_profile_fails 401) (page_load sample_store) in
  localStorage (snd r) !! TOKEN_KEY = None /\
  localStorage (snd r) !! USER_KEY = None /\
  location_href (snd r) = Some "/login" /\
  sent (snd r) = [] ++ [outgoing (page_load sample_store) GET "/api/auth/me" JNull] /\
  fst r = Throw (EAxios (http_error 401)).
Proof.
  apply (@unauthorized_response UserProfile (http_error 401) GET "/api/auth/me" JNull
           (page_load sample_store)); reflexivity.
Defined.

(** C3 as stated fails. The stored user record is the text of an opening
    brace: [getUser] throws the [SyntaxError] of [JSON.parse] instead of
    returning [null], and [initAuth] throws with it, leaving [loading]
    true. *)
Lemma getUser_throws_on_corrupt_record :
  let w := page_load corrupt_store in
  localStorage w !! USER_KEY = Some "{" /\
  JSON_parse reference_JSON "{" = None /\
  fst (authUtils.getUser reference_JSON w) = Throw ESyntaxError /\
  fst (authUtils.getUser reference_JSON w) <> Normal JNull /\
  fst (AuthProvider.initAuth reference_JSON backend_ok w) = Throw ESyntaxError /\
  loading (snd (AuthProvider.initAuth reference_JSON backend_ok w)) = true.
Proof. vm_compute. repeat split. discriminate. Qed.

(** The amended C3 on a well-formed, an empty and a corrupt store. *)
Lemma getUser_outcomes_witness :
  authUtils.getUser reference_JSON (page_load sample_store)
  = (Normal (UserProfile_val sample_profile), page_load sample_store) /\
  authUtils.getUser reference_JSON (page_load ∅) = (Normal JNull, page_load ∅) /\
  authUtils.getUser reference_JSON (page_load corrupt_store)
  = (Throw ESyntaxError, page_load corrupt_store) /\
  AuthProvider.initAuth reference_JSON backend_ok (page_load corrupt_store)
  = (Throw ESyntaxError, page_load corrupt_store).
Proof.
  destruct (getUser_outcomes reference_JSON (page_load sample_store)) as (H1 & _ & _).
  destruct (getUser_outcomes reference_JSON (page_load ∅)) as (_ & H2 & _).
  destruct (getUser_outcomes reference_JSON (page_load corrupt_store)) as (_ & _ & H3).
  split; [ | split].
  - apply (H1 (JSON_stringify reference_JSON (UserProfile_val sample_profile)));
      vm_compute; [reflexivity | discriminate | reflexivity].
  - apply H2. left. reflexivity.
  - destruct (H3 "{") as [H4 H5]; [ reflexivity | discriminate | reflexivity | ].
    split; [exact H4 | exact (H5 backend_ok)].
Defined.

(** The four cases of C4 on a route that requires [baker]. *)
Lemma ProtectedRoute_decision_witness :
  ProtectedRoute (useAuth (page_load sample_store)) "/baker" tt (Some baker) = Spinner /\
  ProtectedRoute (useAuth (session JNull)) "/baker" tt (Some baker)
  = Navigate "/login" (Some "/baker") /\
  ProtectedRoute (useAuth (session (user_with_role "customer"))) "/baker" tt (Some baker)
  = Navigate "/" None /\
  ProtectedRoute (useAuth (session (user_with_role "baker"))) "/baker" tt (Some baker)
  = Children tt.
Proof.
  split; [ | split; [ | split]].
  - apply (ProtectedRoute_decision (useAuth (page_load sample_store)) "/baker" tt (Some baker)).
    reflexivity.
  - apply (ProtectedRoute_decision (useAuth (session JNull)) "/baker" tt (Some baker));
      reflexivity.
  - destruct (ProtectedRoute_decision (useAuth (session (user_with_role "customer")))
                "/baker" tt (Some baker)) as (_ & _ & H & _).
    apply (H eq_refl eq_refl baker eq_refl). unfold role_is. simpl. discriminate.
  - apply (ProtectedRoute_decision (useAuth (session (user_with_role "baker")))
             "/baker" tt (Some baker)); [reflexivity | reflexivity | ].
    right. exists baker. split; reflexivity.
Defined.

(** C5 as stated fails. No token is stored and the stored user record is
    not JSON: [initAuth] throws at [getUser] before it reaches
    [setLoading(false)], so [loading] stays true. *)
Lemma initAuth_throws_without_token :
  let w := page_load corrupt_store_no_token in
  let r := AuthProvider.initAuth reference_JSON backend_ok w in
  localStorage w !! TOKEN_KEY = None /\
  fst r = Throw ESyntaxError /\
  sent (snd r) = [] /\
  loading (snd r) = true /\
  loading (snd r) <> false.
Proof. vm_compute. repeat split. discriminate. Qed.

(** The three branches of the amended C5: validation succeeds, fails with
    401, and nothing is stored. *)
Lemma initAuth_restoration_witness :
  let ok := AuthProvider.initAuth reference_JSON backend_ok (page_load sample_store) in
  let ko := AuthProvider.initAuth reference_JSON (backend_profile_fails 401)
              (page_load sample_store) in
  let no := AuthProvider.initAuth reference_JSON backend_ok (page_load ∅) in
  (fst ok = Normal tt /\ loading (snd ok) = false /\
   user (snd ok) = UserProfile_val sample_profile /\ localStorage (snd ok) = sample_store) /\
  (loading (snd ko) = false /\ user (snd ko) = JNull /\
   localStorage (snd ko) !! TOKEN_KEY = None /\ localStorage (snd ko) !! USER_KEY = None) /\
  (loading (snd no) = false /\ user (snd no) = JNull /\ sent (snd no) = []).
Proof.
  cbv zeta. split; [ | split].
  - destruct (initAuth_restoration reference_JSON backend_ok sample_store
                (UserProfile_val sample_profile)) as (H1 & H2 & H3 & _ & _);
      [vm_compute; reflexivity | ].
    destruct (H3 eq_refl eq_refl sample_profile eq_refl) as (A & _ & B & _).
    repeat split; assumption.
  - destruct (initAuth_restoration reference_JSON (backend_profile_fails 401) sample_store
                (UserProfile_val sample_profile)) as (_ & H2 & _ & H4 & _);
      [vm_compute; reflexivity | ].
    destruct (H4 eq_refl eq_refl (http_error 401) eq_refl) as (A & _ & B & C).
    repeat split; assumption.
  - destruct (initAuth_restoration reference_JSON backend_ok ∅ JNull)
      as (_ & H2 & _ & _ & H5); [reflexivity | ].
    destruct (H5 (or_introl eq_refl)) as (A & _ & _ & B).
    repeat split; assumption.
Defined.

(** C6 after a login and after the logout that follows it. *)
Lemma isAuthenticated_iff_user_witness :
  (AuthProvider.isAuthenticated after_login = true <-> user after_login <> JNull) /\
  (AuthProvider.isAuthenticated after_logout = false <-> user after_logout = JNull).
Proof.
  split.
  - apply (isAuthenticated_iff_user reference_JSON after_login).
    apply reachable_step, reachable_load.
  - apply (isAuthenticated_iff_user reference_JSON after_logout).
    apply reachable_step, reachable_step, reachable_load.
Defined.

(** C8 on an unauthenticated session, a baker and an admin. *)
Lemma hasRole_exact_witness :
  AuthProvider.hasRole (session JNull) "admin" = false /\
  AuthProvider.hasRole (session (user_with_role "baker")) "admin" = false /\
  AuthProvider.hasRole (session (user_with_role "admin")) "admin" = true.
Proof.
  split; [ | split].
  - apply (hasRole_exact (session JNull) "admin"). reflexivity.
  - destruct (hasRole_exact (session (user_with_role "baker")) "admin") as (_ & _ & H & _).
    apply (H "baker"); [reflexivity | discriminate].
  - apply (hasRole_exact (session (user_with_role "admin")) "admin").
    split; [discriminate | reflexivity].
Defined.

(** C9 as stated fails on [loading]. Registration is submitted while the
    startup check of a stored session is still in flight, so [loading] is
    true before the call; after the successful call it is false. *)
Lemma register_resets_loading :
  let w := page_load sample_store in
  let r := AuthProvider.register backend_ok sample_registration w in
  fst r = Normal tt /\
  loading w = true /\
  loading (snd r) = false /\
  loading (snd r) <> loading w.
Proof. vm_compute. repeat split. discriminate. Qed.

(** The amended C9 on a registration during the startup check. *)
Lemma register_frame_witness :
  let w := page_load sample_store in
  let r := AuthProvider.register backend_ok sample_registration w in
  fst r = Normal tt /\
  user (snd r) = user w /\
  localStorage (snd r) = localStorage w /\
  defaults_common (snd r) = defaults_common w /\
  location_href (snd r) = location_href w /\
  loading (snd r) = false /\
  sent (snd r) =
    sent w ++ [outgoing w POST "/api/auth/register" (RegisterRequest_val sample_registration)] /\
  toasts (snd r) =
    toasts w ++ [toast_success (JStr "Registration successful! Please login.")].
Proof.
  apply (register_frame backend_ok sample_registration (page_load sample_store)
           (UserProfile_val sample_profile)).
  reflexivity.
Defined.

(** C10 on a login from an empty store. *)
Lemma login_success_witness :
  let r := AuthProvider.login reference_JSON backend_ok sample_credentials (page_load ∅) in
  fst r = Normal tt /\
  user (snd r) = UserProfile_val sample_profile /\
  localStorage (snd r) !! USER_KEY
  = Some (JSON_stringify reference_JSON (UserProfile_val sample_profile)) /\
  localStorage (snd r) !! TOKEN_KEY = Some "tok123" /\
  loading (snd r) = false /\
  AuthProvider.isAuthenticated (snd r) = true /\
  (forall k, get_prop k (user (snd r)) <> None <-> In k UserProfile_keys) /\
  get_prop "created_at" (user (snd r)) = None /\
  get_prop "phone" (user (snd r)) = None /\
  get_prop "address" (user (snd r)) = None.
Proof.
  apply (login_success reference_JSON backend_ok sample_credentials (page_load ∅)
           sample_token sample_profile); reflexivity.
Defined.

(** * Further properties *)

(** ** More on the API client *)

(** X2. A rejected call whose status is not 401, or that received no
    response, is rethrown to the caller as it is; the store, the location
    and the session are left untouched, and the one request is all that
    was sent. *)
Theorem other_errors_pass_through {A : Type} (error : AxiosError) (method : Method)
  (url : string) (data : JsVal) (w : World) :
  status_is_401 error = false ->
  @ApiService.request A (Rejected error) method url data w
  = (Throw (EAxios error), with_sent (outgoing w method url data) w).
Proof.
  intros H. rewrite request_rejected. unfold rejected_world. now rewrite H.
Qed.

(** X3. [setAuthToken] with a non-empty token puts the bearer header on
    the instance's defaults, and [setAuthToken(null)] removes it again: a
    request sent after that, with no token in the store, carries no
    [Authorization] header. *)
Theorem setAuthToken_clears_default (t : string) (w : World) :
  let w1 := snd (ApiService.setAuthToken (Some t) w) in
  let w2 := snd (ApiService.setAuthToken None w1) in
  (t <> "" -> defaults_common w1 !! "Authorization" = Some ("Bearer " +:+ t)) /\
  defaults_common w2 !! "Authorization" = None /\
  (forall method url data,
     truthy_str (localStorage w !! "token") = false ->
     authorization (outgoing w2 method url data) = None).
Proof.
  cbv zeta. unfold ApiService.setAuthToken, effect. simpl.
  split; [ | split].
  - intros H. apply String.eqb_neq in H. rewrite H. simpl. now simplify_map_eq.
  - destruct (String.eqb t ""); simpl; now simplify_map_eq.
  - intros method url data Ht. unfold authorization, outgoing. simpl.
    assert (E : forall m : gmap string string,
               (ApiService.instance_headers ∪ delete "Authorization" m) !! "Authorization" = None).
    { intros m. unfold ApiService.instance_headers.
      apply lookup_union_None. split; now simplify_map_eq. }
    destruct (String.eqb t ""); simpl;
      (destruct (localStorage w !! "token") as [s | ]; [ | apply E]);
      simpl in Ht; apply negb_false_iff in Ht; rewrite Ht; apply E.
Qed.

(** X4. [logout] sets the current user to [null], removes the token and
    the user from the store and nothing else from it, sends no request,
    shows one notification, and leaves [loading] and the instance's default
    headers as they were. *)
Theorem logout_effect (w : World) :
  let r := AuthProvider.logout w in
  fst r = Normal tt /\
  user (snd r) = JNull /\
  localStorage (snd r) !! TOKEN_KEY = None /\
  localStorage (snd r) !! USER_KEY = None /\
  (forall k, k <> TOKEN_KEY -> k <> USER_KEY ->
     localStorage (snd r) !! k = localStorage w !! k) /\
  sent (snd r) = sent w /\
  defaults_common (snd r) = defaults_common w /\
  loading (snd r) = loading w /\
  toasts (snd r) = toasts w ++ [toast_success (JStr "Logged out successfully")].
Proof.
  cbv zeta. js_unfold. simpl. unfold TOKEN_KEY, USER_KEY.
  repeat split; try now simplify_map_eq.
  intros k H1 H2. now simplify_map_eq.
Qed.

(** ** More on the store *)

(** X5. Round trips of the store: [getToken] returns the token [setToken]
    wrote, and [getUser] the user [setUser] wrote, for a value that the
    platform's JSON serializes to a non-empty text and reads back; neither
    setter disturbs what the other getter returns. *)
Theorem store_round_trip (json : JSON) (token : string) (v : JsVal) (w : World) :
  JSON_stringify json v <> "" ->
  JSON_parse json (JSON_stringify json v) = Some v ->
  let wt := snd (authUtils.setToken token w) in
  let wu := snd (authUtils.setUser json v w) in
  fst (authUtils.getToken wt) = Normal (Some token) /\
  fst (authUtils.getUser json wt) = fst (authUtils.getUser json w) /\
  fst (authUtils.getUser json wu) = Normal v /\
  fst (authUtils.getToken wu) = fst (authUtils.getToken w).
Proof.
  intros Hne Hp. cbv zeta. rewrite !getUser_unfold.
  unfold authUtils.setToken, authUtils.setUser, authUtils.getToken,
    localStorage_setItem, localStorage_getItem, effect, read.
  unfold TOKEN_KEY, USER_KEY. simpl. repeat split.
  - now simplify_map_eq.
  - rewrite lookup_insert_ne by discriminate.
    destruct (localStorage w !! "user") as [s | ]; [ | reflexivity].
    destruct (String.eqb s ""); [reflexivity | ]. now destruct (JSON_parse json s).
  - rewrite lookup_insert_eq. apply String.eqb_neq in Hne. now rewrite Hne, Hp.
  - now rewrite lookup_insert_ne by discriminate.
Qed.

(** X6. The store's [isAuthenticated]: without a (non-empty) token it is
    [false] and the user record is not read, so a corrupt record does not
    make it throw; with a token it is the truthiness of the stored user,
    and it throws where [getUser] throws. *)
Theorem authUtils_isAuthenticated_cases (json : JSON) (w : World) :
  (truthy_str (localStorage w !! TOKEN_KEY) = false ->
     authUtils.isAuthenticated json w = (Normal false, w)) /\
  (truthy_str (localStorage w !! TOKEN_KEY) = true ->
     forall u, authUtils.getUser json w = (Normal u, w) ->
     authUtils.isAuthenticated json w = (Normal (truthy u), w)) /\
  (truthy_str (localStorage w !! TOKEN_KEY) = true ->
     authUtils.getUser json w = (Throw ESyntaxError, w) ->
     authUtils.isAuthenticated json w = (Throw ESyntaxError, w)).
Proof.
  unfold authUtils.isAuthenticated, bind at 1 3 5.
  unfold authUtils.getToken, localStorage_getItem, read. simpl.
  repeat split.
  - intros ->. reflexivity.
  - intros -> u Hu. unfold bind, ret. now rewrite Hu.
  - intros -> Hu. unfold bind. now rewrite Hu.
Qed.

(** X7. [getAuthHeaders] returns at most the [Authorization] header, and,
    when the instance has no default of its own, it is the very header the
    request interceptor puts on a request. *)
Theorem getAuthHeaders_agrees (w : World) :
  exists headers,
    authUtils.getAuthHeaders w = (Normal headers, w) /\
    (forall k, k <> "Authorization" -> headers !! k = None) /\
    (defaults_common w !! "Authorization" = None ->
     forall method url data,
       authorization (outgoing w method url data) = headers !! "Authorization").
Proof.
  unfold authUtils.getAuthHeaders, authUtils.getToken, bind, localStorage_getItem, read, ret,
    authorization, outgoing, TOKEN_KEY. simpl.
  assert (E : defaults_common w !! "Authorization" = None ->
              (ApiService.instance_headers ∪ defaults_common w) !! "Authorization" = None).
  { intros H. apply lookup_union_None. split; [reflexivity | exact H]. }
  destruct (localStorage w !! "token") as [t | ]; simpl.
  - destruct (String.eqb t ""); simpl; eexists; (split; [reflexivity | ]); split.
    + intros k _. apply lookup_empty.
    + intros H method url data. now rewrite E.
    + intros k Hk. now rewrite lookup_singleton_ne.
    + intros _ method url data. now rewrite lookup_insert_eq, lookup_singleton_eq.
  - eexists. split; [reflexivity | ]. split.
    + intros k _. apply lookup_empty.
    + intros H method url data. now rewrite E.
Qed.


(** X8. On a store whose user record can be read, the four role
    predicates return without throwing, at most one of them is true, and
    all are false when the record has no role. *)
Theorem role_predicates_exclusive (json : JSON) (w : World) (u : JsVal) :
  authUtils.getUser json w = (Normal u, w) ->
  exists c b d a,
    authUtils.isCustomer json w = (Normal c, w) /\
    authUtils.isBaker json w = (Normal b, w) /\
    authUtils.isDeliveryPerson json w = (Normal d, w) /\
    authUtils.isAdmin json w = (Normal a, w) /\
    (Nat.b2n c + Nat.b2n b + Nat.b2n d + Nat.b2n a <= 1)%nat /\
    (get_prop "role" u = None -> c = false /\ b = false /\ d = false /\ a = false).
Proof.
  intros Hu.
  unfold authUtils.isCustomer, authUtils.isBaker, authUtils.isDeliveryPerson,
    authUtils.isAdmin, authUtils.hasRole, bind, ret. rewrite Hu.
  do 4 eexists. repeat (split; [reflexivity | ]).
  split.
  - destruct (get_prop "role" u) as [[ | | | r | | ] | ]; simpl; try lia.
    destruct (String.eqb_spec r "customer") as [-> | ?]; [simpl; lia | ].
    destruct (String.eqb_spec r "baker") as [-> | ?]; [simpl; lia | ].
    destruct (String.eqb_spec r "delivery_person") as [-> | ?]; [simpl; lia | ].
    destruct (String.eqb r "admin"); simpl; lia.
  - intros ->. repeat split.
Qed.

(** ** Failed login and registration *)

(** X9. When the credentials exchange is rejected, [login] rethrows the
    error after one error notification (the response's [detail], or
    [Login failed]); it sends that one request only, never fetches the
    profile, leaves the current user and the default headers unchanged and
    ends with [loading] false. The store is unchanged, unless the status
    is 401: then the stored token and user are removed. *)
Theorem login_rejected (json : JSON) (be : Backend) (credentials : LoginRequest)
  (w : World) (error : AxiosError) :
  reply_login be = Rejected error ->
  let r := AuthProvider.login json be credentials w in
  fst r = Throw (EAxios error) /\
  loading (snd r) = false /\
  user (snd r) = user w /\
  defaults_common (snd r) = defaults_common w /\
  sent (snd r) =
    sent w ++ [outgoing w POST "/api/auth/login-form" (LoginRequest_val credentials)] /\
  toasts (snd r) =
    toasts w ++ [toast_error (or_else (AuthProvider.error_detail (EAxios error))
                                (JStr "Login failed"))] /\
  localStorage (snd r) =
    (if status_is_401 error
     then delete USER_KEY (delete TOKEN_KEY (localStorage w))
     else localStorage w).
Proof.
  intros Hl. cbv zeta. js_unfold. rewrite Hl, request_rejected.
  unfold rejected_world. destruct (status_is_401 error); repeat split.
Qed.

(** X10. When the account-creation call is rejected, [register] rethrows
    the error after one error notification (the response's [detail], or
    [Registration failed]), with [loading] false and the current user
    unchanged; the store is unchanged unless the status is 401. *)
Theorem register_rejected (be : Backend) (userData : RegisterRequest) (w : World)
  (error : AxiosError) :
  reply_register be = Rejected error ->
  let r := AuthProvider.register be userData w in
  fst r = Throw (EAxios error) /\
  loading (snd r) = false /\
  user (snd r) = user w /\
  sent (snd r) =
    sent w ++ [outgoing w POST "/api/auth/register" (RegisterRequest_val userData)] /\
  toasts (snd r) =
    toasts w ++ [toast_error (or_else (AuthProvider.error_detail (EAxios error))
                                (JStr "Registration failed"))] /\
  localStorage (snd r) =
    (if status_is_401 error
     then delete USER_KEY (delete TOKEN_KEY (localStorage w))
     else localStorage w).
Proof.
  intros Hr. cbv zeta. js_unfold. rewrite Hr, request_rejected.
  unfold rejected_world. destruct (status_is_401 error); repeat split.
Qed.

(** ** Sessions across page loads *)

(** X11. A session survives a reload. After a successful login with a
    non-empty token, whose profile the platform's JSON reads back, a page
    reload followed by a successful startup check restores that same
    profile as the current user, whatever profile the check itself
    returned; the check is the one request sent, and it carries the stored
    token as bearer. *)
Theorem login_survives_reload (json : JSON) (be be' : Backend) (credentials : LoginRequest)
  (w : World) (resp : AuthResponse) (p p' : UserProfile) :
  reply_login be = Resolved resp ->
  reply_me be = Resolved p ->
  access_token resp <> "" ->
  JSON_stringify json (UserProfile_val p) <> "" ->
  JSON_parse json (JSON_stringify json (UserProfile_val p)) = Some (UserProfile_val p) ->
  reply_me be' = Resolved p' ->
  let w1 := run json (ALogin be credentials) w in
  let w2 := run json (AInitAuth be') (run json AReload w1) in
  user w2 = UserProfile_val p /\
  loading w2 = false /\
  localStorage w2 = localStorage w1 /\
  exists req, sent w2 = sent w1 ++ [req] /\
              req_url req = "/api/auth/me" /\
              authorization req = Some ("Bearer " +:+ access_token resp).
Proof.
  intros Hl Hm Ht Hne Hp Hm'. cbv zeta.
  assert (Hs : localStorage (run json (ALogin be credentials) w)
               = <[USER_KEY := JSON_stringify json (UserProfile_val p)]>
                   (<[TOKEN_KEY := access_token resp]> (localStorage w))).
  { simpl. js_unfold. rewrite Hl, Hm, request_resolved.
    destruct (truthy_str (Some (access_token resp))); rewrite request_resolved; reflexivity. }
  set (w1 := run json (ALogin be credentials) w) in *.
  set (w1' := run json AReload w1).
  assert (Hs' : localStorage w1' = localStorage w1) by reflexivity.
  assert (E : run json (AInitAuth be') w1'
              = with_loading false
                  (with_user (UserProfile_val p)
                     (with_sent (outgoing w1' GET "/api/auth/me" JNull) w1'))).
  { unfold run. rewrite initAuth_unfold, getUser_unfold, Hs', Hs.
    unfold USER_KEY at 1, TOKEN_KEY at 2. rewrite lookup_insert_eq.
    apply String.eqb_neq in Hne. rewrite Hne, Hp.
    unfold USER_KEY, TOKEN_KEY. rewrite lookup_insert_ne by discriminate.
    rewrite lookup_insert_eq.
    apply String.eqb_neq in Ht. simpl truthy_str. rewrite Ht. simpl. now rewrite Hm'. }
  rewrite E. repeat split.
  eexists. split; [reflexivity | ]. split; [reflexivity | ].
  unfold authorization, outgoing. simpl. rewrite Hs.
  unfold USER_KEY, TOKEN_KEY. rewrite lookup_insert_ne by discriminate. rewrite lookup_insert_eq.
  apply String.eqb_neq in Ht. rewrite Ht. now rewrite lookup_insert_eq.
Qed.

(** X12. After any call answered 401 the current user is still in memory
    and the login view is being loaded; once the page has reloaded, the
    startup check makes no call, the session is unauthenticated, and the
    guard sends every destination to the login view. *)
Theorem unauthorized_then_reload (json : JSON) (be : Backend) (error : AxiosError)
  (method : Method) (url : string) (data : JsVal) (w : World) :
  status_is_401 error = true ->
  let w1 := run json (ACall (Rejected error) method url data) w in
  let w2 := run json (AInitAuth be) (run json AReload w1) in
  user w1 = user w /\
  location_href w1 = Some "/login" /\
  user w2 = JNull /\
  loading w2 = false /\
  sent w2 = sent w1 /\
  forall (View : Type) (location : string) (children : View) (requiredRole : option UserRole),
    ProtectedRoute (useAuth w2) location children requiredRole
    = Navigate "/login" (Some location).
Proof.
  intros H. cbv zeta.
  set (w1 := run json (ACall (Rejected error) method url data) w).
  assert (E1 : w1 = with_location_href "/login"
                      (with_localStorage (delete "user")
                         (with_localStorage (delete "token")
                            (with_sent (outgoing w method url data) w)))).
  { unfold w1, run. rewrite request_rejected. unfold rejected_world. now rewrite H. }
  set (w1' := run json AReload w1).
  assert (E2 : run json (AInitAuth be) w1' = with_loading false w1').
  { unfold run. rewrite initAuth_unfold, getUser_unfold.
    assert (Hu : localStorage w1' !! USER_KEY = None).
    { unfold w1'. rewrite E1. unfold USER_KEY. simpl. now simplify_map_eq. }
    assert (Ht : localStorage w1' !! TOKEN_KEY = None).
    { unfold w1'. rewrite E1. unfold TOKEN_KEY. simpl. now simplify_map_eq. }
    now rewrite Hu, Ht. }
  rewrite E2. split; [now rewrite E1 | ]. split; [now rewrite E1 | ].
  repeat split.
Qed.

(** ** The login page *)

Lemma onSubmit_unfold (json : JSON) (be : Backend) (state_from : option string)
  (data : LoginRequest) (w : World) :
  LoginPage.onSubmit json be state_from data w =
  match AuthProvider.login json be data w with
  | (Normal _, w') => (Normal (LoginPage.navigate (LoginPage.from state_from)), w')
  | (Throw e, w') =>
      (Normal (LoginPage.setError_root
                 (or_else (AuthProvider.error_detail e)
                    (JStr "Login failed. Please try again."))), w')
  end.
Proof.
  unfold LoginPage.onSubmit, try_catch, bind, ret, or_else.
  destruct (AuthProvider.login json be data w) as [[[] | e] w']; [reflexivity | ].
  destruct (AuthProvider.error_detail e) as [d | ]; [ | reflexivity].
  now destruct (truthy d).
Qed.

Lemma or_else_truthy (x : option JsVal) (d : JsVal) :
  truthy d = true -> truthy (or_else x d) = true.
Proof.
  intros Hd. unfold or_else. destruct x as [v | ]; [ | exact Hd].
  destruct (truthy v) eqn:Hv; [exact Hv | exact Hd].
Qed.


(** X13. Submitting the login form never throws: it has the effects of
    [login] and ends either in a navigation to the recorded destination
    (login succeeded) or in a root error on the form with a non-empty
    message, the fixed one when the error carries no [detail]. *)
Theorem LoginPage_onSubmit_outcomes (json : JSON) (be : Backend)
  (state_from : option string) (data : LoginRequest) (w : World) :
  let l := AuthProvider.login json be data w in
  let r := LoginPage.onSubmit json be state_from data w in
  snd r = snd l /\
  (fst l = Normal tt -> fst r = Normal (LoginPage.navigate (LoginPage.from state_from))) /\
  (forall e, fst l = Throw e ->
     exists message,
       fst r = Normal (LoginPage.setError_root message) /\
       truthy message = true /\
       (AuthProvider.error_detail e = None ->
        message = JStr "Login failed. Please try again.")).
Proof.
  cbv zeta. rewrite onSubmit_unfold.
  destruct (AuthProvider.login json be data w) as [[[] | e] w']; simpl.
  - repeat split. intros e [=].
  - repeat split; [discriminate | ]. intros e' [= <-].
    eexists. split; [reflexivity | ]. split; [now apply or_else_truthy | ].
    now intros ->.
Qed.


(** ** The navigation bar *)

(** X15. Every link the navigation bar offers to a signed-in user leads
    to a route that renders its page: the guard never redirects it. *)
Theorem nav_items_are_admitted (w : World) (item : Navbar.NavItem) :
  loading w = false ->
  truthy (user w) = true ->
  In item (Navbar.filteredNavItems (user w)) ->
  exists page, App.render w (Navbar.path item) = Children page.
Proof.
  intros Hl Hu Hin. unfold Navbar.filteredNavItems in Hin.
  apply filter_In in Hin. destruct Hin as [Hin Hf].
  rewrite Hu in Hf. simpl in Hf.
  unfold App.render, ProtectedRoute, useAuth, AuthProvider.isAuthenticated. simpl.
  unfold Navbar.navigationItems in Hin. simpl in Hin.
  destruct Hin as [<- | [<- | [<- | [<- | [<- | [<- | []]]]]]];
    simpl in *; rewrite Hl, Hu; simpl; try (eexists; reflexivity);
    rewrite orb_false_r in Hf; rewrite Hf; simpl; eexists; reflexivity.
Qed.



(** ** Error messages *)

Lemma str_or_nonempty (a : option string) (b : string) :
  b <> "" -> str_or a b <> "".
Proof.
  intros Hb. unfold str_or. destruct a as [s | ]; [ | exact Hb].
  destruct (String.eqb_spec s ""); assumption.
Qed.

(** X18. [getErrorMessage] never returns the empty string: it is the
    response's [detail] when that is not empty, else the error's message
    when that is not empty, else the fixed message, which is also the
    answer for a value that is not an [Error]. *)
Theorem getErrorMessage_never_empty (error : Unknown) :
  getErrorMessage error <> "" /\
  (forall e d, error = IsError e -> response_detail e = Some d -> d <> "" ->
     getErrorMessage error = d) /\
  (forall e, error = IsError e ->
     response_detail e = None \/ response_detail e = Some "" ->
     api_message e <> "" -> getErrorMessage error = api_message e) /\
  (forall e, error = IsError e ->
     response_detail e = None \/ response_detail e = Some "" ->
     api_message e = "" -> getErrorMessage error = "An error occurred") /\
  (forall v, error = NotError v -> getErrorMessage error = "An error occurred").
Proof.
  split; [ | split; [ | split; [ | split]]].
  - destruct error as [e | v]; [ | discriminate].
    unfold getErrorMessage. apply str_or_nonempty. discriminate.
  - intros e d -> Hd Hne. simpl. rewrite Hd. simpl.
    apply String.eqb_neq in Hne. now rewrite Hne, Hne.
  - intros e -> [Hd | Hd] Hm; simpl; rewrite Hd; simpl;
      apply String.eqb_neq in Hm; now rewrite Hm.
  - intros e -> [Hd | Hd] Hm; simpl; rewrite Hd; simpl; now rewrite Hm.
  - now intros v ->.
Qed.

(** ** Order listings *)

Lemma encode_byte_chars (c : ascii) :
  forallb encoded_char (URLSearchParams.encode_byte c) = true.
Proof. destruct c as [[] [] [] [] [] [] [] []]; reflexivity. Qed.

Lemma encoded_char_not_separator (c : ascii) :
  encoded_char c = true -> Ascii.eqb "=" c = false /\ Ascii.eqb "&" c = false.
Proof. destruct c as [[] [] [] [] [] [] [] []]; simpl; intros H; try discriminate; now split. Qed.

Lemma encode_chars (s : string) : forallb encoded_char (URLSearchParams.encode s) = true.
Proof.
  unfold URLSearchParams.encode. induction (list_ascii_of_string s) as [ | c l IH]; simpl.
  - reflexivity.
  - rewrite forallb_app, encode_byte_chars, IH. reflexivity.
Qed.

Lemma occurrences_app (c : ascii) (l1 l2 : list ascii) :
  occurrences c (l1 ++ l2) = (occurrences c l1 + occurrences c l2)%nat.
Proof. unfold occurrences. now rewrite List.filter_app, List.length_app. Qed.

Lemma chars_no_separator (l : list ascii) :
  forallb encoded_char l = true ->
  occurrences "=" l = 0%nat /\ occurrences "&" l = 0%nat.
Proof.
  unfold occurrences. induction l as [ | c l IH]; intros H; [now split | ].
  cbn [forallb] in H. apply andb_true_iff in H. destruct H as [Hc Hl].
  cbn [List.filter]. destruct (encoded_char_not_separator c Hc) as [-> ->]. now apply IH.
Qed.

Lemma chars_weaken (l : list ascii) :
  forallb encoded_char l = true ->
  forallb (fun c => encoded_char c || Ascii.eqb c "=" || Ascii.eqb c "&") l = true.
Proof.
  induction l as [ | c l IH]; intros H; [reflexivity | ].
  cbn [forallb] in *. apply andb_true_iff in H. destruct H as [-> Hl].
  rewrite IH by exact Hl. reflexivity.
Qed.

Lemma occurrences_cons (c d : ascii) (l : list ascii) :
  occurrences c (d :: l) = ((if Ascii.eqb c d then 1 else 0) + occurrences c l)%nat.
Proof. unfold occurrences. cbn [List.filter]. now destruct (Ascii.eqb c d). Qed.

Lemma serialize_pair_counts (kv : string * string) :
  forallb (fun c => encoded_char c || Ascii.eqb c "=" || Ascii.eqb c "&")
    (URLSearchParams.serialize_pair kv) = true /\
  occurrences "=" (URLSearchParams.serialize_pair kv) = 1%nat /\
  occurrences "&" (URLSearchParams.serialize_pair kv) = 0%nat.
Proof.
  unfold URLSearchParams.serialize_pair.
  destruct (chars_no_separator _ (encode_chars (fst kv))) as [E1 A1].
  destruct (chars_no_separator _ (encode_chars (snd kv))) as [E2 A2].
  repeat split.
  - rewrite forallb_app. cbn [forallb].
    rewrite !chars_weaken by apply encode_chars. reflexivity.
  - now rewrite occurrences_app, occurrences_cons, E1, E2.
  - now rewrite occurrences_app, occurrences_cons, A1, A2.
Qed.

Lemma serialize_counts (pairs : list (string * string)) :
  forallb (fun c => encoded_char c || Ascii.eqb c "=" || Ascii.eqb c "&")
    (URLSearchParams.serialize pairs) = true /\
  occurrences "=" (URLSearchParams.serialize pairs) = List.length pairs /\
  occurrences "&" (URLSearchParams.serialize pairs) = Nat.pred (List.length pairs).
Proof.
  induction pairs as [ | kv rest IH]; [now repeat split | ].
  destruct (serialize_pair_counts kv) as (S1 & S2 & S3).
  destruct rest as [ | kv' rest'].
  - cbn [URLSearchParams.serialize List.length Nat.pred]. now repeat split.
  - destruct IH as (I1 & I2 & I3).
    change (URLSearchParams.serialize (kv :: kv' :: rest'))
      with (URLSearchParams.serialize_pair kv ++ "&"%char :: URLSearchParams.serialize (kv' :: rest')).
    repeat split.
    + rewrite forallb_app. cbn [forallb]. now rewrite S1, I1.
    + rewrite occurrences_app, occurrences_cons, S2, I2. reflexivity.
    + rewrite occurrences_app, occurrences_cons, S3, I3. reflexivity.
Qed.

Lemma params_of_defined (toStr : number -> string) (entries : list (string * FilterValue)) :
  List.length (Orders.params_of toStr entries)
  = List.length (List.filter (fun kv => defined (snd kv)) entries) /\
  List.map fst (Orders.params_of toStr entries)
  = List.map fst (List.filter (fun kv => defined (snd kv)) entries).
Proof.
  induction entries as [ | [key value] rest [IH1 IH2]]; [now split | ].
  destruct value; cbn [Orders.params_of Orders.value_toString List.filter snd defined];
    cbn [List.length List.map fst]; rewrite ?IH1, ?IH2; now split.
Qed.

(** X19. The query string of the order listings is made of letters,
    digits and the characters [*-._+%=&] only; it has one [=] per filter
    that is neither [undefined] nor [null] and one [&] between two of
    them, so no filter value can add a parameter; it is empty when no
    filter is given. *)
Theorem orders_query_is_well_formed (toStr : number -> string)
  (filters : option (list (string * FilterValue))) :
  let entries := match filters with Some l => l | None => [] end in
  let given := List.filter (fun kv => defined (snd kv)) entries in
  let q := list_ascii_of_string (Orders.query toStr filters) in
  forallb (fun c => encoded_char c || Ascii.eqb c "=" || Ascii.eqb c "&") q = true /\
  occurrences "=" q = List.length given /\
  occurrences "&" q = Nat.pred (List.length given) /\
  (given = [] -> Orders.query toStr filters = "").
Proof.
  cbv zeta. unfold Orders.query, URLSearchParams.toString.
  rewrite list_ascii_of_string_of_list_ascii.
  set (entries := match filters with Some l => l | None => [] end).
  assert (E : match filters with
              | Some entries0 => Orders.params_of toStr entries0
              | None => []
              end = Orders.params_of toStr entries) by now destruct filters.
  rewrite E. destruct (serialize_counts (Orders.params_of toStr entries)) as (H1 & H2 & H3).
  destruct (params_of_defined toStr entries) as [L _].
  repeat split.
  - exact H1.
  - now rewrite H2, L.
  - now rewrite H3, L.
  - intros G. rewrite G in L. simpl in L.
    destruct (Orders.params_of toStr entries); [reflexivity | discriminate].
Qed.

(** ** Dashboard statistics *)

Lemma count_le_length {A} (f : A -> bool) (l : list A) :
  (Dashboard.count f l <= List.length l)%nat.
Proof. unfold Dashboard.count. apply List.filter_length_le. Qed.

Lemma count_le {A} (f g : A -> bool) (l : list A) :
  (forall x, f x = true -> g x = true) ->
  (Dashboard.count f l <= Dashboard.count g l)%nat.
Proof.
  intros H. unfold Dashboard.count. induction l as [ | x l IH]; [reflexivity | ].
  cbn [List.filter]. destruct (f x) eqn:Ef.
  - rewrite (H x Ef). cbn [List.length]. lia.
  - destruct (g x); cbn [List.length]; lia.
Qed.

Lemma count_disjoint {A} (f g : A -> bool) (l : list A) :
  (forall x, f x = true -> g x = false) ->
  (Dashboard.count f l + Dashboard.count g l <= List.length l)%nat.
Proof.
  intros H. unfold Dashboard.count. induction l as [ | x l IH]; [reflexivity | ].
  cbn [List.filter]. destruct (f x) eqn:Ef.
  - rewrite (H x Ef). cbn [List.length]. lia.
  - destruct (g x); cbn [List.length]; lia.
Qed.

Lemma count_ext_in {A} (f g : A -> bool) (l : list A) :
  (forall x, In x l -> f x = g x) -> Dashboard.count f l = Dashboard.count g l.
Proof.
  intros H. unfold Dashboard.count. f_equal. now apply List.filter_ext_in.
Qed.

Section DashboardStats.
Variable num : Type.
Variable num_zero : num.
Variable num_add : num -> num -> num.
Variable Order : Type.
Variable order_status : Order -> string.
Variable order_final_amount : Order -> num.
Variable User : Type.
Variable user_role : User -> string.
Variable Number_toString : number -> string.

Local Abbreviation stats_of :=
  (Dashboard.getDashboardStats num num_zero num_add Order order_status
     order_final_amount User user_role Number_toString).

(** X20. When both listings succeed, [getDashboardStats] has sent the
    orders request and then the users request; the delivered orders are
    among the completed ones, pending and completed orders together do not
    exceed the total, the customers do not exceed the users, and on orders
    whose status is one of [OrderStatus] the completed orders are exactly
    the delivered ones. *)
Theorem getDashboardStats_counts (orders : list Order) (users : list User) (w : World) :
  exists stats,
    stats_of (Resolved orders) (Resolved users) w
    = (Normal stats,
       with_sent (outgoing (with_sent (outgoing w GET "/api/orders/admin/all?" JNull) w)
                    GET "/api/users/" JNull)
         (with_sent (outgoing w GET "/api/orders/admin/all?" JNull) w)) /\
    Dashboard.total_orders num stats = List.length orders /\
    (Dashboard.completed_deliveries num stats <= Dashboard.completed_orders num stats)%nat /\
    (Dashboard.pending_orders num stats + Dashboard.completed_orders num stats
     <= Dashboard.total_orders num stats)%nat /\
    (Dashboard.total_customers num stats <= List.length users)%nat /\
    (Forall (fun o => In (order_status o) OrderStatus_values) orders ->
     Dashboard.completed_orders num stats = Dashboard.completed_deliveries num stats).
Proof.
  unfold Dashboard.getDashboardStats, Dashboard.getUsers, Orders.getAllOrders, bind, ret.
  rewrite request_resolved, request_resolved.
  eexists. split; [reflexivity | ]. cbn [Dashboard.total_orders Dashboard.completed_deliveries
    Dashboard.completed_orders Dashboard.pending_orders Dashboard.total_customers].
  repeat split.
  - apply count_le. intros o H. cbn [existsb]. now rewrite H.
  - apply count_disjoint. intros o H. apply String.eqb_eq in H. now rewrite H.
  - apply count_le_length.
  - intros Hall. apply count_ext_in. intros o Ho.
    rewrite List.Forall_forall in Hall. specialize (Hall o Ho).
    cbn [existsb]. rewrite orb_false_r.
    assert (Hc : String.eqb (order_status o) "completed" = false).
    { apply String.eqb_neq. intros E. rewrite E in Hall.
      unfold OrderStatus_values in Hall. simpl in Hall. intuition discriminate. }
    rewrite Hc, orb_false_r. reflexivity.
Qed.

(** X21. When the orders listing is rejected, [getDashboardStats]
    rethrows that error and the users are never requested. *)
Theorem getDashboardStats_orders_fail (error : AxiosError) (reply_users : Outcome (list User))
  (w : World) :
  stats_of (Rejected error) reply_users w
  = (Throw (EAxios error),
     rejected_world error (with_sent (outgoing w GET "/api/orders/admin/all?" JNull) w)).
Proof.
  unfold Dashboard.getDashboardStats, Orders.getAllOrders, bind.
  now rewrite request_rejected.
Qed.

End DashboardStats.

(** ** The orders query *)

Lemma request_sent {A} (reply : Outcome A) (method : Method) (url : string)
  (data : JsVal) (w : World) :
  sent (snd (ApiService.request reply method url data w))
  = sent w ++ [outgoing w method url data].
Proof.
  destruct reply as [d | error]; js_run; [reflexivity | ].
  unfold rejected_world. simpl. now destruct (status_is_401 error).
Qed.

(** X22. The orders page sends one request, a GET: to the listing of all
    orders exactly when the current user's role is [admin] or [baker], and
    to the user's own orders otherwise, an absent user included. *)
Theorem OrdersPage_query_endpoint {Order : Type} (Number_toString : number -> string)
  (reply reply_all : Outcome (list Order)) (w : World) :
  exists req,
    sent (snd (OrdersPage_queryFn Number_toString reply reply_all w)) = sent w ++ [req] /\
    req_method req = GET /\
    (AuthProvider.hasRole w "admin" = true \/ AuthProvider.hasRole w "baker" = true ->
     req_url req = "/api/orders/admin/all?") /\
    (AuthProvider.hasRole w "admin" = false -> AuthProvider.hasRole w "baker" = false ->
     req_url req = "/api/orders/?").
Proof.
  unfold OrdersPage_queryFn, AuthProvider.hasRole, Orders.getAllOrders, Orders.getOrders.
  destruct (strict_eq_str (get_prop "role" (user w)) "admin") eqn:Ea;
    destruct (strict_eq_str (get_prop "role" (user w)) "baker") eqn:Eb; simpl;
    rewrite request_sent; eexists; (split; [reflexivity | ]); (split; [reflexivity | ]);
    split; try reflexivity; try discriminate; intros [H | H]; discriminate.
Qed.

(** * The further properties on concrete runs *)

Lemma other_errors_pass_through_witness :
  @ApiService.request UserProfile (Rejected (http_error 500)) GET "/api/auth/me" JNull
    (page_load sample_store)
  = (Throw (EAxios (http_error 500)),
     with_sent (outgoing (page_load sample_store) GET "/api/auth/me" JNull)
       (page_load sample_store)).
Proof.
  apply (@other_errors_pass_through UserProfile (http_error 500) GET "/api/auth/me" JNull
           (page_load sample_store)).
  reflexivity.
Defined.

Lemma setAuthToken_clears_default_witness :
  let w1 := snd (ApiService.setAuthToken (Some "tok123") (page_load ∅)) in
  let w2 := snd (ApiService.setAuthToken None w1) in
  defaults_common w1 !! "Authorization" = Some "Bearer tok123" /\
  defaults_common w2 !! "Authorization" = None /\
  authorization (outgoing w2 GET "/api/products/" JNull) = None.
Proof.
  destruct (setAuthToken_clears_default "tok123" (page_load ∅)) as (H1 & H2 & H3).
  split; [apply H1; discriminate | ]. split; [exact H2 | ].
  apply H3. reflexivity.
Defined.

Lemma store_round_trip_witness :
  let wt := snd (authUtils.setToken "tok123" (page_load ∅)) in
  let wu := snd (authUtils.setUser reference_JSON (UserProfile_val sample_profile)
                   (page_load ∅)) in
  fst (authUtils.getToken wt) = Normal (Some "tok123") /\
  fst (authUtils.getUser reference_JSON wt)
  = fst (authUtils.getUser reference_JSON (page_load ∅)) /\
  fst (authUtils.getUser reference_JSON wu) = Normal (UserProfile_val sample_profile) /\
  fst (authUtils.getToken wu) = fst (authUtils.getToken (page_load ∅)).
Proof.
  apply (store_round_trip reference_JSON "tok123" (UserProfile_val sample_profile)
           (page_load ∅)); vm_compute; [discriminate | reflexivity].
Defined.

Lemma authUtils_isAuthenticated_cases_witness :
  authUtils.isAuthenticated reference_JSON (page_load corrupt_store_no_token)
  = (Normal false, page_load corrupt_store_no_token) /\
  authUtils.isAuthenticated reference_JSON (page_load sample_store)
  = (Normal true, page_load sample_store) /\
  authUtils.isAuthenticated reference_JSON (page_load corrupt_store)
  = (Throw ESyntaxError, page_load corrupt_store).
Proof.
  split; [ | split].
  - apply (authUtils_isAuthenticated_cases reference_JSON (page_load corrupt_store_no_token)).
    reflexivity.
  - destruct (authUtils_isAuthenticated_cases reference_JSON (page_load sample_store))
      as (_ & H & _).
    apply (H eq_refl (UserProfile_val sample_profile)). vm_compute. reflexivity.
  - destruct (authUtils_isAuthenticated_cases reference_JSON (page_load corrupt_store))
      as (_ & _ & H).
    apply (H eq_refl). vm_compute. reflexivity.
Defined.

Lemma role_predicates_exclusive_witness :
  exists c b d a,
    authUtils.isCustomer reference_JSON (page_load sample_store)
    = (Normal c, page_load sample_store) /\
    authUtils.isBaker reference_JSON (page_load sample_store)
    = (Normal b, page_load sample_store) /\
    authUtils.isDeliveryPerson reference_JSON (page_load sample_store)
    = (Normal d, page_load sample_store) /\
    authUtils.isAdmin reference_JSON (page_load sample_store)
    = (Normal a, page_load sample_store) /\
    (Nat.b2n c + Nat.b2n b + Nat.b2n d + Nat.b2n a <= 1)%nat /\
    (get_prop "role" (UserProfile_val sample_profile) = None ->
     c = false /\ b = false /\ d = false /\ a = false).
Proof.
  apply (role_predicates_exclusive reference_JSON (page_load sample_store)
           (UserProfile_val sample_profile)).
  vm_compute. reflexivity.
Defined.

Lemma login_rejected_witness :
  let r := AuthProvider.login reference_JSON (backend_rejects 401) sample_credentials
             (page_load sample_store) in
  fst r = Throw (EAxios (http_error 401)) /\
  loading (snd r) = false /\
  user (snd r) = JNull /\
  defaults_common (snd r) = ∅ /\
  sent (snd r) =
    [] ++ [outgoing (page_load sample_store) POST "/api/auth/login-form"
             (LoginRequest_val sample_credentials)] /\
  toasts (snd r) = [] ++ [toast_error (JStr "rejected")] /\
  localStorage (snd r) = delete USER_KEY (delete TOKEN_KEY sample_store).
Proof.
  apply (login_rejected reference_JSON (backend_rejects 401) sample_credentials
           (page_load sample_store) (http_error 401)).
  reflexivity.
Defined.

Lemma register_rejected_witness :
  let r := AuthProvider.register (backend_rejects 400) sample_registration
             (page_load sample_store) in
  fst r = Throw (EAxios (http_error 400)) /\
  loading (snd r) = false /\
  user (snd r) = JNull /\
  sent (snd r) =
    [] ++ [outgoing (page_load sample_store) POST "/api/auth/register"
             (RegisterRequest_val sample_registration)] /\
  toasts (snd r) = [] ++ [toast_error (JStr "rejected")] /\
  localStorage (snd r) = sample_store.
Proof.
  apply (register_rejected (backend_rejects 400) sample_registration
           (page_load sample_store) (http_error 400)).
  reflexivity.
Defined.

Lemma login_survives_reload_witness :
  let w2 := run reference_JSON (AInitAuth backend_ok) (run reference_JSON AReload after_login) in
  user w2 = UserProfile_val sample_profile /\
  loading w2 = false /\
  localStorage w2 = localStorage after_login /\
  exists req, sent w2 = sent after_login ++ [req] /\
              req_url req = "/api/auth/me" /\
              authorization req = Some ("Bearer " +:+ "tok123").
Proof.
  apply (login_survives_reload reference_JSON backend_ok backend_ok sample_credentials
           (page_load ∅) sample_token sample_profile sample_profile);
    vm_compute; first [reflexivity | discriminate].
Defined.

Lemma unauthorized_then_reload_witness :
  let w1 := run reference_JSON (ACall (Rejected (http_error 401)) GET "/api/products/" JNull)
              after_login in
  let w2 := run reference_JSON (AInitAuth backend_ok) (run reference_JSON AReload w1) in
  user w1 = user after_login /\
  location_href w1 = Some "/login" /\
  user w2 = JNull /\
  loading w2 = false /\
  sent w2 = sent w1 /\
  forall (View : Type) (location : string) (children : View) (requiredRole : option UserRole),
    ProtectedRoute (useAuth w2) location children requiredRole
    = Navigate "/login" (Some location).
Proof.
  apply (unauthorized_then_reload reference_JSON backend_ok (http_error 401) GET
           "/api/products/" JNull after_login).
  reflexivity.
Defined.

Lemma LoginPage_onSubmit_outcomes_witness :
  fst (LoginPage.onSubmit reference_JSON backend_ok (Some "/orders") sample_credentials
         (page_load ∅))
  = Normal (LoginPage.navigate "/orders") /\
  exists message,
    fst (LoginPage.onSubmit reference_JSON (backend_rejects 401) None sample_credentials
           (page_load ∅))
    = Normal (LoginPage.setError_root message) /\
    truthy message = true.
Proof.
  split.
  - apply (LoginPage_onSubmit_outcomes reference_JSON backend_ok (Some "/orders")
             sample_credentials (page_load ∅)).
    reflexivity.
  - destruct (LoginPage_onSubmit_outcomes reference_JSON (backend_rejects 401) None
                sample_credentials (page_load ∅)) as (_ & _ & H).
    destruct (H (EAxios (http_error 401)) eq_refl) as (message & H1 & H2 & _).
    exists message. split; assumption.
Defined.


Lemma nav_items_are_admitted_witness :
  exists page,
    App.render (session (user_with_role "baker")) (Navbar.path baker_dashboard_item)
    = Children page.
Proof.
  apply (nav_items_are_admitted (session (user_with_role "baker")) baker_dashboard_item);
    [reflexivity | reflexivity | ].
  vm_compute. tauto.
Defined.



Lemma getErrorMessage_never_empty_witness :
  getErrorMessage
    (IsError {| api_message := "Request failed";
                api_response := Some {| api_data := Some {| api_detail := Some "Email taken" |} |} |})
  = "Email taken" /\
  getErrorMessage (IsError {| api_message := "Network Error"; api_response := None |})
  = "Network Error" /\
  getErrorMessage (IsError {| api_message := ""; api_response := None |})
  = "An error occurred".
Proof.
  split; [ | split].
  - set (e := {| api_message := "Request failed";
                 api_response := Some {| api_data := Some {| api_detail := Some "Email taken" |} |} |}).
    destruct (getErrorMessage_never_empty (IsError e)) as (_ & H & _).
    apply (H e "Email taken"); [reflexivity | reflexivity | discriminate].
  - set (e := {| api_message := "Network Error"; api_response := None |}).
    destruct (getErrorMessage_never_empty (IsError e)) as (_ & _ & H & _).
    apply (H e); [reflexivity | now left | discriminate].
  - set (e := {| api_message := ""; api_response := None |}).
    destruct (getErrorMessage_never_empty (IsError e)) as (_ & _ & _ & H & _).
    apply (H e); [reflexivity | now left | reflexivity].
Defined.

Lemma getDashboardStats_counts_witness :
  exists stats,
    fst (Dashboard.getDashboardStats nat 0%nat Nat.add (string * nat) fst snd string
           (fun role => role) print_number (Resolved sample_orders) (Resolved sample_users)
           (page_load sample_store))
    = Normal stats /\
    Dashboard.completed_orders nat stats = Dashboard.completed_deliveries nat stats /\
    Dashboard.total_orders nat stats = 4%nat.
Proof.
  destruct (getDashboardStats_counts nat 0%nat Nat.add (string * nat) fst snd string
              (fun role => role) print_number sample_orders sample_users
              (page_load sample_store))
    as (stats & H1 & H2 & _ & _ & _ & H6).
  exists stats. split; [now rewrite H1 | ]. split; [ | exact H2].
  apply H6. unfold sample_orders, OrderStatus_values.
  repeat constructor; simpl; tauto.
Defined.

(** The query of a listing filtered by status, an undefined start date, an
    end date that tries to add a parameter, and a customer. *)
Example orders_query_sample :
  Orders.query print_number (Some sample_filters)
  = "status=out_for_delivery&date_to=2024-01-31+%26+more%3D1&customer_id=7".
Proof. vm_compute. reflexivity. Qed.
